(** * ATMServerUpdater: a shallow embedding of [ATMServerUpdater.py]

    The development follows the Python source function by function.
    Python [int] is [Z], [str] is [string] (a sequence of bytes; every
    string the program inspects character by character is ASCII), [bool]
    is [bool] and a value that may be [None] is an [option].  A raised
    exception is the [Raise] branch of [result]. *)

From Stdlib Require Import ZArith List String Ascii Bool Lia DecimalString.
From Stdlib Require DecimalZ DecimalPos.
Import ListNotations.

Local Open Scope string_scope.
Local Open Scope Z_scope.

(** ** Exceptions and results *)

Inductive exn : Type :=
| ZeroDivisionError
| ValueError          (* math.log of a negative number: math domain error *)
| IndexError
| UnboundLocalError
| AttributeError
| EOFError            (* input() on an exhausted stdin *)
| URLError            (* the registry expression raised: in urlopen, json.loads,
                         ["data"][0] or Release; the kinds are not told apart *)
| FileNotFoundError.  (* ZipFile or extractall raised; the kinds are not told
                         apart *)

Inductive result (A : Type) : Type :=
| Ok (a : A)
| Raise (e : exn).

Arguments Ok {A} a.
Arguments Raise {A} e.

Definition rbind {A B : Type} (r : result A) (k : A -> result B) : result B :=
  match r with
  | Ok a => k a
  | Raise e => Raise e
  end.

(** ** The string methods the program uses *)

Module PyStr.

(** [str(n)] and [f"{n}"] for an [int]. *)
Definition of_Z (n : Z) : string := NilZero.string_of_int (Z.to_int n).

(** [s * n]: repetition; a count of zero or less gives the empty string. *)
Fixpoint repeat_nat (s : string) (n : nat) : string :=
  match n with
  | O => ""
  | S n' => s ++ repeat_nat s n'
  end.

Definition repeat (s : string) (n : Z) : string := repeat_nat s (Z.to_nat n).

(** [s.ljust(w)]: spaces are appended up to width [w]. *)
Definition ljust (s : string) (w : nat) : string :=
  s ++ repeat_nat " " (w - String.length s).

(** [f"{s:>{w}}"]: spaces are prepended up to width [w]. *)
Definition rjust (s : string) (w : nat) : string :=
  repeat_nat " " (w - String.length s) ++ s.

(** [s[:n]] for a non-negative [n]. *)
Definition take (n : nat) (s : string) : string := substring 0 n s.

(** [s.split(sep)] for a separator of one character.  The list is never
    empty: a string without the separator is returned whole. *)
Fixpoint split (sep : ascii) (s : string) : list string :=
  match s with
  | EmptyString => [EmptyString]
  | String c rest =>
      if Ascii.eqb c sep then EmptyString :: split sep rest
      else match split sep rest with
           | [] => [String c EmptyString]
           | piece :: pieces => String c piece :: pieces
           end
  end.

(** [c.lower()] on one ASCII character. *)
Definition lower_ascii (c : ascii) : ascii :=
  let n := nat_of_ascii c in
  if andb (Nat.leb 65 n) (Nat.leb n 90) then ascii_of_nat (n + 32) else c.

(** [s.lower()].  Only the ASCII letters are mapped; no other character
    lower-cases to one of the letters of "yes" and "no", so membership of
    the result in the answer list is the same as in Python. *)
Fixpoint lower (s : string) : string :=
  match s with
  | EmptyString => EmptyString
  | String c rest => String (lower_ascii c) (lower rest)
  end.

(** [x in l] for a list of strings. *)
Definition mem (x : string) (l : list string) : bool :=
  existsb (String.eqb x) l.

End PyStr.

(** ** Endpoint and Release *)

Module Endpoint.
Definition FILES : string := "files".
Definition ADDITIONAL_FILES : string := "additional-files".
Definition DOWNLOAD : string := "download".
End Endpoint.

(** The fields [Release.__init__] reads off the registry entry.  The [user]
    dictionary is kept as an opaque string. *)
Record Release : Type := mkRelease {
  id : Z;
  date_created : string;
  date_modified : string;
  display_name : string;
  file_length : Z;
  file_name : string;
  status : Z;
  game_versions : list string;
  game_version_type_ids : list Z;
  release_type : Z;
  total_downloads : Z;
  user : string;
  additional_files_count : Z;
  has_server_pack : bool;
  additional_server_pack_files_count : Z;
  is_early_access_content : bool
}.

(** ** Version resolver *)

(** [release.additional_files_count > 0 and release.has_server_pack] *)
Definition has_server_files (release : Release) : bool :=
  (0 <? additional_files_count release) && has_server_pack release.

(** [release.display_name.split("-")[-1]] *)
Definition parse_version (release : Release) : string :=
  last (PyStr.split "-" (display_name release)) "".

(** ** Size formatting *)

Definition size_name : list string :=
  ["B"; "KB"; "MB"; "GB"; "TB"; "PB"; "EB"; "ZB"; "YB"].

(** [round(n / d)] for [d > 0]: to the nearest integer, ties to the even
    one. *)
Definition round_half_even (n d : Z) : Z :=
  let q := n / d in
  let r := n mod d in
  if 2 * r <? d then q
  else if d <? 2 * r then q + 1
  else if Z.even q then q else q + 1.

(** How Python prints the float [h / 100] when [h >= 0]: the integer part,
    a point, and the hundredths without a trailing zero, one digit at
    least ("1.0", "1.5", "1.25"). *)
Definition float_repr_hundredths (h : Z) : string :=
  let whole := h / 100 in
  let frac := h mod 100 in
  PyStr.of_Z whole ++ "." ++
  (if frac mod 10 =? 0 then PyStr.of_Z (frac / 10)
   else PyStr.of_Z (frac / 10) ++ PyStr.of_Z (frac mod 10)).

(** [convert_size].  [math.log(size_bytes, 1024)] floored is the largest
    [i] with [1024 ^ i <= size_bytes], computed here on integers as
    [Z.log2 size_bytes / 10]; [size_bytes / p] divides by a power of two
    and is taken exactly, which is what the float division gives for every
    size below [2 ^ 53].  A negative size fails in [math.log]; a size of
    [1024 ^ 9] or more indexes past the unit table. *)
Definition convert_size (size_bytes : Z) (rounded : bool) : result string :=
  if size_bytes =? 0 then Ok "0 B"
  else if size_bytes <? 0 then Raise ValueError
  else
    let i := Z.log2 size_bytes / 10 in
    let p := 1024 ^ i in
    let s := if rounded then PyStr.of_Z (round_half_even size_bytes p)
             else float_repr_hundredths (round_half_even (size_bytes * 100) p) in
    match nth_error size_name (Z.to_nat i) with
    | Some unit_name => Ok (s ++ " " ++ unit_name)
    | None => Raise IndexError
    end.

(** ** Download progress hook *)

Definition rjf : nat := 24.

Definition statuses : list string :=
  [ PyStr.ljust "[Aaand We're Off]" rjf;
    PyStr.ljust "[Getting There...]" rjf;
    PyStr.ljust "[Halfway Point]" rjf;
    PyStr.ljust "[Almost...]" rjf;
    PyStr.ljust "[Just A Little More...]" rjf;
    PyStr.ljust "[Complete]" rjf ].

(** [int(block_count * block_size * 100 / total_size)]: true division, then
    truncation toward zero.  The quotient is taken exactly; the float
    division agrees with it whenever the product stays below [2 ^ 53]. *)
Definition progress_percent (block_count block_size total_size : Z) : result Z :=
  if total_size =? 0 then Raise ZeroDivisionError
  else Ok (Z.quot (block_count * block_size * 100) total_size).

(** The cascade of six [if] statements: every test that holds overwrites
    [status], so the last one that holds wins.  The value is the index into
    [statuses]; [None] is the unbound local. *)
Definition select_status (percent : Z) : option nat :=
  let status := None in
  let status := if 0 <=? percent then Some 0%nat else status in
  let status := if 20 <=? percent then Some 1%nat else status in
  let status := if 50 <=? percent then Some 2%nat else status in
  let status := if 75 <=? percent then Some 3%nat else status in
  let status := if 90 <=? percent then Some 4%nat else status in
  let status := if percent =? 100 then Some 5%nat else status in
  status.

(** The bar cell, as the string literal stands in the source file. *)
Definition bar_cell : string := "â–ˆ".

Definition bar_width : Z := 40.

(** [int(bar_width * min(100, percent) / 100)] *)
Definition num_blocks (percent : Z) : Z :=
  Z.quot (bar_width * Z.min 100 percent) 100.

Definition progress_bar (percent : Z) : string :=
  "[" ++ PyStr.repeat bar_cell (num_blocks percent)
      ++ PyStr.repeat " " (bar_width - num_blocks percent) ++ "]".

(** What one call of the hook does: nothing at all, or one line printed
    with [end='\r']. *)
Inductive hook_output : Type :=
| Quiet
| Shown (line : string).

(** [dph_filename] is the instance attribute the caller sets before the
    transfer starts ([None]: not set). *)
Definition download_progress_hook (dph_filename : option string)
    (block_count block_size total_size : Z) : result hook_output :=
  if 1024 <? block_count * block_size then
    rbind (progress_percent block_count block_size total_size) (fun percent =>
    let status := select_status percent in
    rbind (convert_size total_size true) (fun dl_total =>
    let dl_digits := String.length (nth 0 (PyStr.split " " dl_total) "") in
    rbind (convert_size (block_count * block_size) true) (fun curr_dled =>
    let curr_dled_padded :=
      PyStr.rjust (nth 0 (PyStr.split " " curr_dled) "") dl_digits
        ++ " " ++ nth 1 (PyStr.split " " dl_total) "" in
    let bar := progress_bar percent in
    match dph_filename with
    | None => Raise AttributeError
    | Some filename =>
        match status with
        | None => Raise UnboundLocalError
        | Some k =>
            Ok (Shown ("-> Downloading " ++ filename
                       ++ " | Progress: " ++ PyStr.rjust (PyStr.of_Z percent) 2
                       ++ "% " ++ bar ++ " "
                       ++ PyStr.take (dl_digits + 3) curr_dled_padded
                       ++ " / " ++ dl_total
                       ++ " | Status: " ++ nth k statuses ""))
        end
    end)))
  else Ok Quiet.
(** ** Configuration document and the updater instance *)

(** The eight keys of [config.json]. *)
Record Config : Type := mkConfig {
  cfg_all_the_mods_9 : string;
  cfg_page_index : Z;
  cfg_page_size : Z;
  cfg_sort : string;
  cfg_sort_desc : string;
  cfg_remove_alphas : string;
  cfg_current_version : option string;
  cfg_data : option string
}.

(** The attributes of the [ATMServerUpdater] instance. *)
Record Updater : Type := mkUpdater {
  all_the_mods_9 : string;
  page_index : Z;
  page_size : Z;
  sort : string;
  sort_desc : string;
  remove_alphas : string;
  data : option string;
  current_version : option string;
  dph_filename : option string
}.

Definition CURSEFORGE_API : string := "https://www.curseforge.com/api/v1".

Definition build_query_url (self : Updater) (endpoint : string) : string :=
  CURSEFORGE_API ++ "/mods/" ++ all_the_mods_9 self ++ "/" ++ endpoint
    ++ "?index=" ++ PyStr.of_Z (page_index self)
    ++ "&pageSize=" ++ PyStr.of_Z (page_size self)
    ++ "&sort=" ++ sort self
    ++ "&sortDescending=" ++ sort_desc self
    ++ "&removeAlphas=" ++ remove_alphas self.

Definition build_download_url (self : Updater) (release : Release) : string :=
  CURSEFORGE_API ++ "/mods/" ++ all_the_mods_9 self ++ "/" ++ Endpoint.FILES
    ++ "/" ++ PyStr.of_Z (id release) ++ "/" ++ Endpoint.DOWNLOAD.

Definition build_additional_files_url (self : Updater) (release : Release) : string :=
  CURSEFORGE_API ++ "/mods/" ++ all_the_mods_9 self ++ "/" ++ Endpoint.FILES
    ++ "/" ++ PyStr.of_Z (id release) ++ "/" ++ Endpoint.ADDITIONAL_FILES.

(** ** The outside world and the running machine *)

(** What the program observes and does, in order. *)
Inductive event : Type :=
| Print (line : string)                 (* print of a string *)
| PrintList (items : list string)       (* print of a list of names *)
| Prompt (text : string)                (* input(text) *)
| Log (msg : string)                    (* logger.info *)
| Fetch (url : string)                  (* urllib.request.urlopen(url).read() *)
| Retrieve (url dest : string)          (* urllib.request.urlretrieve(url, dest, hook) *)
| ExtractAll (archive : string)         (* ZipFile(archive).extractall() *)
| WriteConfig (c : Config).             (* config.json rewritten *)

(** One entry of the working directory: a plain file, or a directory with
    the names it contains. *)
Record DirEntry : Type := mkDirEntry {
  entry_name : string;
  entry_listing : option (list string)
}.

(** The collaborators the run reads from and never changes: the registry
    (the first entry of the listing served at a URL, [None] when the call
    or the parse fails), the archives that can be opened and unpacked, and
    the working directory. *)
Record World : Type := mkWorld {
  registry : string -> option Release;
  archive_ok : string -> bool;
  cwd : string;
  cwd_entries : list DirEntry
}.

Record Machine : Type := mkMachine {
  self : Updater;
  stdin : list string;
  trace : list event;
  config_json : Config
}.

(** A computation reads and updates the machine and returns or raises. *)
Definition M (A : Type) : Type := Machine -> result A * Machine.

Definition ret {A : Type} (a : A) : M A := fun m => (Ok a, m).

Definition bind {A B : Type} (c : M A) (k : A -> M B) : M B :=
  fun m =>
    match c m with
    | (Ok a, m') => k a m'
    | (Raise e, m') => (Raise e, m')
    end.

Definition throw {A : Type} (e : exn) : M A := fun m => (Raise e, m).

Declare Scope updater_scope.
Delimit Scope updater_scope with upd.
Notation "x <- c ;; k" := (bind c (fun x => k))
  (at level 61, c at next level, right associativity) : updater_scope.
Notation "c ;; k" := (bind c (fun _ => k))
  (at level 61, right associativity) : updater_scope.
Local Open Scope updater_scope.

Definition emit (e : event) : M unit :=
  fun m => (Ok tt, mkMachine (self m) (stdin m) (trace m ++ [e])%list (config_json m)).

Definition print (line : string) : M unit := emit (Print line).

Definition get_self : M Updater := fun m => (Ok (self m), m).

Definition set_self (u : Updater) : M unit :=
  fun m => (Ok tt, mkMachine u (stdin m) (trace m) (config_json m)).

(** [input(text)]: the next line of standard input. *)
Definition input (text : string) : M string :=
  fun m =>
    match stdin m with
    | [] => (Raise EOFError, mkMachine (self m) [] (trace m ++ [Prompt text])%list (config_json m))
    | line :: rest =>
        (Ok line, mkMachine (self m) rest (trace m ++ [Prompt text])%list (config_json m))
    end.

Definition set_current_version (v : option string) (u : Updater) : Updater :=
  mkUpdater (all_the_mods_9 u) (page_index u) (page_size u) (sort u) (sort_desc u)
            (remove_alphas u) (data u) v (dph_filename u).

Definition set_dph_filename (f : option string) (u : Updater) : Updater :=
  mkUpdater (all_the_mods_9 u) (page_index u) (page_size u) (sort u) (sort_desc u)
            (remove_alphas u) (data u) (current_version u) f.

(** ** Registry client *)

Definition get_latest_version (w : World) : M Release :=
  print "-> Getting latest version..." ;;
  u <- get_self ;;
  let url := build_query_url u Endpoint.FILES in
  emit (Fetch url) ;;
  match registry w url with
  | Some release => ret release
  | None => throw URLError
  end.

(** [get_server_files].  The second log line also carries the raw
    dictionary of the entry, which is left out here.  The whole call of
    [urlretrieve] is the one event [Retrieve]: what happens during the
    transfer (the calls of the progress hook, a failure of the transport)
    is not part of this model. *)
Definition get_server_files (w : World) (release : Release) : M unit :=
  u <- get_self ;;
  let additional_files_url := build_additional_files_url u release in
  emit (Log ("Querying additional-files endpoint: " ++ additional_files_url)) ;;
  emit (Fetch (build_additional_files_url u release)) ;;
  match registry w (build_additional_files_url u release) with
  | None => throw URLError
  | Some server_files =>
      emit (Log ("Additional file(s) for " ++ display_name release ++ ": ")) ;;
      set_self (set_dph_filename (Some (file_name server_files)) u) ;;
      emit (Retrieve (build_download_url u server_files) (file_name server_files))
  end.

(** ** Prompts *)

(** The loop of [yes_no] over the lines still on standard input: one
    prompt per line read, until an accepted answer. *)
Fixpoint yes_no_loop (question : string) (lines : list string) (tr : list event)
  : result bool * list string * list event :=
  let tr' := (tr ++ [Prompt (question ++ " | (Y)es/(N)o: ")])%list in
  match lines with
  | [] => (Raise EOFError, [], tr')
  | yn :: rest =>
      if PyStr.mem (PyStr.lower yn) ["y"; "yes"; "n"; "no"]
      then (Ok (PyStr.mem (PyStr.lower yn) ["y"; "yes"]), rest, tr')
      else yes_no_loop question rest tr'
  end.

Definition yes_no (question : string) : M bool :=
  fun m =>
    match yes_no_loop question (stdin m) (trace m) with
    | (r, rest, tr) => (r, mkMachine (self m) rest tr (config_json m))
    end.

(** ** Configuration store *)

Definition read_config (c : Config) : Updater :=
  mkUpdater (cfg_all_the_mods_9 c) (cfg_page_index c) (cfg_page_size c) (cfg_sort c)
            (cfg_sort_desc c) (cfg_remove_alphas c) (cfg_data c)
            (cfg_current_version c) None.

Definition config_of (u : Updater) : Config :=
  mkConfig (all_the_mods_9 u) (page_index u) (page_size u) (sort u) (sort_desc u)
           (remove_alphas u) (current_version u) (data u).

Definition save_config : M unit :=
  print "-> Saving config..." ;;
  (fun m =>
     let c := config_of (self m) in
     (Ok tt, mkMachine (self m) (stdin m) (trace m ++ [WriteConfig c])%list c)) ;;
  print "-> Config saved!".

(** ** Installation stager *)

Definition markers : list string := ["forge.jar"; "server.properties"; "mods"].

(** [s.startswith("/")] and [s.endswith("/")] *)
Definition starts_with_sep (s : string) : bool :=
  match s with
  | EmptyString => false
  | String c _ => Ascii.eqb c "/"
  end.

Fixpoint ends_with_sep (s : string) : bool :=
  match s with
  | EmptyString => false
  | String c EmptyString => Ascii.eqb c "/"
  | String _ rest => ends_with_sep rest
  end.

(** [os.path.join(a, b)] as [posixpath] defines it: an absolute [b]
    replaces [a]; no separator is added after an empty [a] or an [a] that
    ends in one. *)
Definition path_join (a b : string) : string :=
  if starts_with_sep b then b
  else if String.eqb a "" || ends_with_sep a then a ++ b
  else a ++ "/" ++ b.

(** [find_modpack_directories] on the working directory: the listing of
    every directory is printed, and the directories holding a marker are
    returned under their joined path. *)
Fixpoint find_modpack_directories_loop (curr_dir : string) (entries : list DirEntry)
  : list event * list string :=
  match entries with
  | [] => ([], [])
  | entry :: rest =>
      let entry_path := path_join curr_dir (entry_name entry) in
      let (evs, dirs) := find_modpack_directories_loop curr_dir rest in
      match entry_listing entry with
      | None => (evs, dirs)
      | Some listing =>
          (PrintList listing :: evs,
           if existsb (fun file => PyStr.mem file listing) markers
           then entry_path :: dirs else dirs)
      end
  end.

Definition find_modpack_directories (w : World) : M (list string) :=
  fun m =>
    let found := find_modpack_directories_loop (cwd w) (cwd_entries w) in
    (Ok (snd found),
     mkMachine (self m) (stdin m) (trace m ++ fst found)%list (config_json m)).

Definition install_update (w : World) (filename : string) : M unit :=
  print "-> Installing update..." ;;
  dirs <- find_modpack_directories w ;;
  emit (PrintList dirs) ;;
  (if archive_ok w filename then emit (ExtractAll filename)
   else throw FileNotFoundError) ;;
  print "-> Update installed!".

(** ** Update orchestrator *)

(** [self.current_version == latest_version] *)
Definition version_eqb (current : option string) (latest_version : string) : bool :=
  match current with
  | None => false
  | Some v => String.eqb v latest_version
  end.

(** The four arms of the [if]/[elif]/[elif]/[else] chain of [update]. *)
Inductive Branch : Type :=
| NewVersionFound
| OnLatestVersion
| NoServerFilesFound
| NoNewVersionFound.

(** The tests of the chain, in the order of the source. *)
Definition update_branch (current : option string) (latest_version : string)
    (latest_release : Release) : Branch :=
  if negb (version_eqb current latest_version) && has_server_files latest_release
  then NewVersionFound
  else if version_eqb current latest_version then OnLatestVersion
  else if negb (has_server_files latest_release) then NoServerFilesFound
  else NoNewVersionFound.

Definition dquote : string := String (ascii_of_nat 34) EmptyString.
Definition newline : string := String (ascii_of_nat 10) EmptyString.

Definition version_prompt : string :=
  "-> Please provide your current server files version. Example(s): "
    ++ dquote ++ "latest" ++ dquote ++ ", " ++ dquote ++ "0.1.12" ++ dquote
    ++ newline ++ "   Enter version: ".

Definition update (w : World) : M unit :=
  print "-> Update started..." ;;
  latest_release <- get_latest_version w ;;
  let latest_version := parse_version latest_release in
  u <- get_self ;;
  match current_version u with
  | None =>
      v <- input version_prompt ;;
      set_self (set_current_version (Some v) u)
  | Some _ => ret tt
  end ;;
  u <- get_self ;;
  match update_branch (current_version u) latest_version latest_release with
  | NewVersionFound =>
      print ("-> New version found! (" ++ latest_version ++ ")") ;;
      yes <- yes_no "-> Do you want to update?" ;;
      if yes then
        u <- get_self ;;
        set_self (set_dph_filename (Some "Server-Files-0.1.12.zip") u) ;;
        u <- get_self ;;
        match dph_filename u with
        | Some filename => install_update w filename
        | None => throw AttributeError
        end ;;
        print "-> Update complete!"
      else
        print "-> Update cancelled."
  | OnLatestVersion => print "-> You are on the latest version."
  | NoServerFilesFound => print "-> No server files found."
  | NoNewVersionFound => print "-> No new version found."
  end ;;
  save_config.

(** The machine once the constructor has read [config.json]: the instance
    mirrors the document, and nothing has been printed by [update] yet. *)
Definition boot (c : Config) (lines : list string) : Machine :=
  mkMachine (read_config c) lines [] c.
(** ** The decision procedure as the specification words it *)

Inductive Decision : Type :=
| UpdateAvailable
| UpToDate
| NoServerFiles
| UnknownNeedsInput.

(** Written after the specification, not after the code: an absent version
    asks for input; otherwise equality is tested first, then the
    availability of server files. *)
Definition Decide (currentVersion : option string) (latest : Release) : Decision :=
  match currentVersion with
  | None => UnknownNeedsInput
  | Some v =>
      if String.eqb v (parse_version latest) then UpToDate
      else if negb (has_server_files latest) then NoServerFiles
      else UpdateAvailable
  end.

(** The arm of the source's chain that stands for each decision. *)
Definition branch_decision (b : Branch) : option Decision :=
  match b with
  | NewVersionFound => Some UpdateAvailable
  | OnLatestVersion => Some UpToDate
  | NoServerFilesFound => Some NoServerFiles
  | NoNewVersionFound => None
  end.

(** The line [update] prints on entering each arm. *)
Definition announcement (latest : Release) (b : Branch) : string :=
  match b with
  | NewVersionFound => "-> New version found! (" ++ parse_version latest ++ ")"
  | OnLatestVersion => "-> You are on the latest version."
  | NoServerFilesFound => "-> No server files found."
  | NoNewVersionFound => "-> No new version found."
  end.

(** The version [update] decides on: the stored one, or else the first
    line typed at the version prompt. *)
Definition resolved_version (c : Config) (lines : list string) : option string :=
  match cfg_current_version c with
  | Some v => Some v
  | None => hd_error lines
  end.

Definition with_current_version (c : Config) (v : option string) : Config :=
  mkConfig (cfg_all_the_mods_9 c) (cfg_page_index c) (cfg_page_size c) (cfg_sort c)
           (cfg_sort_desc c) (cfg_remove_alphas c) v (cfg_data c).

(** A release with the given display name; the other fields are those of
    a pack with one additional file and a server pack. *)
Definition release_named (name : string) : Release :=
  mkRelease 4711 "2023-10-01" "2023-10-01" name 1024 "pack.zip" 1 [] [] 1 0 ""
            1 true 1 false.

(** [c in s] for one character. *)
Fixpoint has_char (c : ascii) (s : string) : bool :=
  match s with
  | EmptyString => false
  | String c' rest => Ascii.eqb c' c || has_char c rest
  end.

(** ** The paths of one run of [update]

    Every run from [boot c lines] takes one of seven paths.  The pieces
    they share are named first. *)

Definition query_url (c : Config) : string :=
  build_query_url (read_config c) Endpoint.FILES.

Definition preamble (c : Config) : list event :=
  [Print "-> Update started..."; Print "-> Getting latest version...";
   Fetch (query_url c)].

Definition version_prompts (c : Config) : list event :=
  match cfg_current_version c with
  | None => [Prompt version_prompt]
  | Some _ => []
  end.

Definition stdin_after_version (c : Config) (lines : list string) : list string :=
  match cfg_current_version c with
  | None => tl lines
  | Some _ => lines
  end.

Definition announced (c : Config) (latest : Release) (b : Branch) : list event :=
  (preamble c ++ version_prompts c ++ [Print (announcement latest b)])%list.

Definition saving (u : Updater) : list event :=
  [Print "-> Saving config..."; WriteConfig (config_of u); Print "-> Config saved!"].

Definition staged_archive : string := "Server-Files-0.1.12.zip".

Definition discovery (w : World) : list event :=
  let found := find_modpack_directories_loop (cwd w) (cwd_entries w) in
  (Print "-> Installing update..." :: fst found ++ [PrintList (snd found)])%list.

Inductive update_run (w : World) (c : Config) (lines : list string)
  : result unit * Machine -> Prop :=
| run_registry_down :
    registry w (query_url c) = None ->
    update_run w c lines
      (Raise URLError, mkMachine (read_config c) lines (preamble c) c)
| run_no_version latest :
    registry w (query_url c) = Some latest ->
    resolved_version c lines = None ->
    update_run w c lines
      (Raise EOFError,
       mkMachine (read_config c) [] (preamble c ++ [Prompt version_prompt])%list c)
| run_settled latest cur b :
    registry w (query_url c) = Some latest ->
    resolved_version c lines = Some cur ->
    update_branch (Some cur) (parse_version latest) latest = b ->
    b = OnLatestVersion \/ b = NoServerFilesFound ->
    let u := set_current_version (Some cur) (read_config c) in
    update_run w c lines
      (Ok tt,
       mkMachine u (stdin_after_version c lines)
                 (announced c latest b ++ saving u)%list (config_of u))
| run_unanswered latest cur e rest tr :
    registry w (query_url c) = Some latest ->
    resolved_version c lines = Some cur ->
    update_branch (Some cur) (parse_version latest) latest = NewVersionFound ->
    yes_no_loop "-> Do you want to update?" (stdin_after_version c lines)
                (announced c latest NewVersionFound) = (Raise e, rest, tr) ->
    let u := set_current_version (Some cur) (read_config c) in
    update_run w c lines (Raise e, mkMachine u rest tr c)
| run_cancelled latest cur rest tr :
    registry w (query_url c) = Some latest ->
    resolved_version c lines = Some cur ->
    update_branch (Some cur) (parse_version latest) latest = NewVersionFound ->
    yes_no_loop "-> Do you want to update?" (stdin_after_version c lines)
                (announced c latest NewVersionFound) = (Ok false, rest, tr) ->
    let u := set_current_version (Some cur) (read_config c) in
    update_run w c lines
      (Ok tt,
       mkMachine u rest (tr ++ Print "-> Update cancelled." :: saving u)%list
                 (config_of u))
| run_extract_failed latest cur rest tr :
    registry w (query_url c) = Some latest ->
    resolved_version c lines = Some cur ->
    update_branch (Some cur) (parse_version latest) latest = NewVersionFound ->
    yes_no_loop "-> Do you want to update?" (stdin_after_version c lines)
                (announced c latest NewVersionFound) = (Ok true, rest, tr) ->
    archive_ok w staged_archive = false ->
    let u := set_dph_filename (Some staged_archive)
               (set_current_version (Some cur) (read_config c)) in
    update_run w c lines
      (Raise FileNotFoundError, mkMachine u rest (tr ++ discovery w)%list c)
| run_installed latest cur rest tr :
    registry w (query_url c) = Some latest ->
    resolved_version c lines = Some cur ->
    update_branch (Some cur) (parse_version latest) latest = NewVersionFound ->
    yes_no_loop "-> Do you want to update?" (stdin_after_version c lines)
                (announced c latest NewVersionFound) = (Ok true, rest, tr) ->
    archive_ok w staged_archive = true ->
    let u := set_dph_filename (Some staged_archive)
               (set_current_version (Some cur) (read_config c)) in
    update_run w c lines
      (Ok tt,
       mkMachine u rest
         (tr ++ discovery w
             ++ [ExtractAll staged_archive; Print "-> Update installed!";
                 Print "-> Update complete!"]
             ++ saving u)%list
         (config_of u)).

(** ** A concrete installation

    A pack whose latest release is 0.1.13, with a server pack the registry
    serves as "Server-Files-0.1.13.zip"; on disk there is the archive of
    0.1.12 only, next to one server directory. *)

Definition example_latest : Release :=
  mkRelease 4800001 "2023-10-08" "2023-10-08" "All the Mods 9-0.1.13" 5242880
            "All the Mods 9-0.1.13.zip" 4 ["1.20.1"] [75125] 2 1000 "ATMTeam"
            1 true 0 false.

Definition example_server_files : Release :=
  mkRelease 4800002 "2023-10-08" "2023-10-08" "Server-Files-0.1.13" 3145728
            "Server-Files-0.1.13.zip" 4 ["1.20.1"] [75125] 2 500 "ATMTeam"
            0 false 0 false.

Definition example_config : Config :=
  mkConfig "715572" 0 1 "dateCreated" "true" "true" (Some "0.1.11") None.

(** The document the constructor creates when there is none. *)
Definition default_config : Config :=
  mkConfig "715572" 0 1 "dateCreated" "true" "true" None None.

Definition example_world : World :=
  mkWorld
    (fun url =>
       if String.eqb url (query_url example_config) then Some example_latest
       else if String.eqb url
                 (build_additional_files_url (read_config example_config) example_latest)
            then Some example_server_files
            else None)
    (fun archive => String.eqb archive "Server-Files-0.1.12.zip")
    "/srv"
    [mkDirEntry "atm9" (Some ["server.properties"; "mods"; "world"]);
     mkDirEntry "backups" (Some ["monday.tar"]);
     mkDirEntry "Server-Files-0.1.12.zip" None].

(** ** Vocabulary for the properties of the prompts and of discovery *)

(** The test of [yes_no] that ends the loop. *)
Definition accepted (yn : string) : bool :=
  PyStr.mem (PyStr.lower yn) ["y"; "yes"; "n"; "no"].

(** The value [yes_no] returns for an accepted answer. *)
Definition affirmative (yn : string) : bool :=
  PyStr.mem (PyStr.lower yn) ["y"; "yes"].

(** The answers that decline: "n" or "no", in any case of the letters. *)
Definition declines (yn : string) : bool :=
  PyStr.mem (PyStr.lower yn) ["n"; "no"].

(** The test of [find_modpack_directories] on one entry: a directory whose
    listing holds one of the markers. *)
Definition holds_marker (entry : DirEntry) : bool :=
  match entry_listing entry with
  | None => false
  | Some listing => existsb (fun file => PyStr.mem file listing) markers
  end.

Definition is_directory (entry : DirEntry) : bool :=
  match entry_listing entry with
  | None => false
  | Some _ => true
  end.

Definition listing_of (entry : DirEntry) : list string :=
  match entry_listing entry with
  | None => []
  | Some listing => listing
  end.

(** * Properties *)

(** ** Strings *)

Lemma split_not_nil (sep : ascii) (s : string) : PyStr.split sep s <> [].
Proof.
  induction s as [|c rest IH]; simpl; [discriminate|].
  destruct (Ascii.eqb c sep); [discriminate|].
  destruct (PyStr.split sep rest); [contradiction|discriminate].
Qed.

Lemma split_without_sep (sep : ascii) (s : string) :
  has_char sep s = false -> PyStr.split sep s = [s].
Proof.
  induction s as [|c rest IH]; simpl; intros H; [reflexivity|].
  apply orb_false_elim in H as [Hc Hrest].
  rewrite Hc, (IH Hrest). reflexivity.
Qed.

Lemma last_cons_not_nil {A : Type} (x d : A) (l : list A) :
  l <> [] -> last (x :: l) d = last l d.
Proof. destruct l; [contradiction|reflexivity]. Qed.

Lemma last_split_app (sep : ascii) (a b : string) :
  last (PyStr.split sep (a ++ String sep b)) "" = last (PyStr.split sep b) "".
Proof.
  induction a as [|c a' IH]; simpl.
  - rewrite Ascii.eqb_refl. apply last_cons_not_nil, split_not_nil.
  - destruct (Ascii.eqb c sep) eqn:Hc.
    + rewrite last_cons_not_nil by apply split_not_nil. exact IH.
    + destruct (PyStr.split sep (a' ++ String sep b)) as [|piece pieces] eqn:Hs.
      * exfalso. exact (split_not_nil _ _ Hs).
      * destruct pieces as [|piece' pieces'].
        -- exfalso. clear IH. revert piece Hs.
           induction a' as [|c' a'' IH']; simpl; intros piece Hs.
           ++ rewrite Ascii.eqb_refl in Hs.
              destruct (PyStr.split sep b) eqn:Hb; [exact (split_not_nil _ _ Hb)|discriminate].
           ++ destruct (Ascii.eqb c' sep).
              ** destruct (PyStr.split sep (a'' ++ String sep b)) eqn:Hb;
                   [exact (split_not_nil _ _ Hb)|discriminate].
              ** destruct (PyStr.split sep (a'' ++ String sep b)) as [|p ps] eqn:Hb;
                   [exact (split_not_nil _ _ Hb)|].
                 injection Hs as _ Hps. subst ps. exact (IH' p eq_refl).
        -- rewrite <- IH. reflexivity.
Qed.

(** ** Version resolver *)

(** C7. [has_server_files] is true exactly when the additional-file count
    is strictly positive and the server-pack flag is set; with a count of
    zero it is false whatever the flag. *)
Theorem has_server_files_iff (release : Release) :
  (has_server_files release = true <->
   0 < additional_files_count release /\ has_server_pack release = true)
  /\ (additional_files_count release = 0 -> has_server_files release = false).
Proof.
  unfold has_server_files. split.
  - rewrite andb_true_iff, Z.ltb_lt. tauto.
  - intros ->. reflexivity.
Qed.

Lemma has_server_files_iff_witness :
  additional_files_count
    (mkRelease 1 "" "" "Pack-1.0" 0 "pack.zip" 1 [] [] 1 0 "" 0 true 0 false) = 0
  /\ has_server_files
       (mkRelease 1 "" "" "Pack-1.0" 0 "pack.zip" 1 [] [] 1 0 "" 0 true 0 false) = false.
Proof.
  split; [reflexivity|].
  apply (proj2 (has_server_files_iff
    (mkRelease 1 "" "" "Pack-1.0" 0 "pack.zip" 1 [] [] 1 0 "" 0 true 0 false))).
  reflexivity.
Defined.

(** C8, as stated, fails: the segment after the delimiter of
    "Display Name - 1.2.3" keeps its leading space. *)
Lemma parse_version_keeps_leading_space :
  parse_version (release_named "Display Name - 1.2.3") <> "1.2.3".
Proof. vm_compute. discriminate. Qed.

(** C8, amended. [parse_version] returns what follows the last "-" of the
    display name, untrimmed: " 1.2.3" (with the space) for
    "Display Name - 1.2.3", "1.2.3" for "Display Name-1.2.3"; a display
    name without the delimiter is returned whole. *)
Theorem parse_version_trailing_segment :
  parse_version (release_named "Display Name - 1.2.3") = " 1.2.3"
  /\ parse_version (release_named "Display Name-1.2.3") = "1.2.3"
  /\ parse_version (release_named "NoDelimiterName") = "NoDelimiterName"
  /\ (forall release, has_char "-" (display_name release) = false ->
        parse_version release = display_name release)
  /\ (forall release prefix v,
        display_name release = prefix ++ "-" ++ v -> has_char "-" v = false ->
        parse_version release = v).
Proof.
  repeat split; try reflexivity.
  - intros release H. unfold parse_version.
    rewrite (split_without_sep _ _ H). reflexivity.
  - intros release prefix v Hname Hv. unfold parse_version. rewrite Hname.
    change (prefix ++ "-" ++ v) with (prefix ++ String "-" v).
    rewrite last_split_app, (split_without_sep _ _ Hv). reflexivity.
Qed.

Lemma parse_version_trailing_segment_witness :
  has_char "-" (display_name (release_named "NoDelimiterName")) = false
  /\ parse_version (release_named "NoDelimiterName")
     = display_name (release_named "NoDelimiterName")
  /\ display_name (release_named "All the Mods 9-0.1.12")
     = "All the Mods 9" ++ "-" ++ "0.1.12"
  /\ has_char "-" "0.1.12" = false
  /\ parse_version (release_named "All the Mods 9-0.1.12") = "0.1.12".
Proof.
  destruct parse_version_trailing_segment as (_ & _ & _ & Hwhole & Hseg).
  split; [reflexivity|]. split.
  - apply Hwhole. reflexivity.
  - split; [reflexivity|]. split; [reflexivity|].
    apply (Hseg _ "All the Mods 9" "0.1.12"); reflexivity.
Defined.

(** ** Size formatting *)

(** C9, as stated, fails: with rounding disabled, which is the default,
    1024 bytes are printed as the float "1.0". *)
Lemma convert_size_1024_unrounded :
  convert_size 1024 false <> Ok "1 KB".
Proof. vm_compute. discriminate. Qed.

(** C9, amended. [convert_size] returns "0 B" for 0 bytes; for 1024 bytes
    it returns "1 KB" with rounding enabled and "1.0 KB" with rounding
    disabled; for 1536 bytes with rounding disabled it returns "1.5 KB";
    the units are the nine binary ones, B through YB, one per power of
    1024. *)
Theorem convert_size_examples :
  (forall rounded, convert_size 0 rounded = Ok "0 B")
  /\ convert_size 1024 true = Ok "1 KB"
  /\ convert_size 1024 false = Ok "1.0 KB"
  /\ convert_size 1536 false = Ok "1.5 KB"
  /\ size_name = ["B"; "KB"; "MB"; "GB"; "TB"; "PB"; "EB"; "ZB"; "YB"]
  /\ (forall k unit_name, nth_error size_name k = Some unit_name ->
        convert_size (1024 ^ Z.of_nat k) true = Ok ("1 " ++ unit_name)).
Proof.
  repeat split; try reflexivity.
  intros k unit_name H.
  do 9 (destruct k as [|k]; [injection H as <-; vm_compute; reflexivity|]).
  destruct k; discriminate.
Qed.

Lemma convert_size_examples_witness :
  nth_error size_name 2 = Some "MB" /\ convert_size (1024 ^ Z.of_nat 2) true = Ok "1 MB".
Proof.
  split; [reflexivity|].
  apply (proj2 (proj2 (proj2 (proj2 (proj2 convert_size_examples)))) 2%nat "MB").
  reflexivity.
Defined.

(** ** Download progress hook *)

(** Up to 100 percent the selected label never moves back. *)
Lemma select_status_monotone_to_100 (p q : Z) :
  0 <= p -> p <= q -> q <= 100 ->
  exists i j, select_status p = Some i /\ select_status q = Some j /\ (i <= j)%nat.
Proof.
  intros Hp Hpq Hq. unfold select_status.
  destruct (Z.leb_spec 0 p); [|lia].
  destruct (Z.leb_spec 0 q); [|lia].
  destruct (Z.leb_spec 20 p), (Z.leb_spec 20 q); try lia;
  destruct (Z.leb_spec 50 p), (Z.leb_spec 50 q); try lia;
  destruct (Z.leb_spec 75 p), (Z.leb_spec 75 q); try lia;
  destruct (Z.leb_spec 90 p), (Z.leb_spec 90 q); try lia;
  destruct (Z.eqb_spec p 100), (Z.eqb_spec q 100); try lia;
  do 2 eexists; (split; [reflexivity|split; [reflexivity|lia]]).
Qed.

(** Past 100 percent the sixth label is not selected: the fifth is. *)
Lemma select_status_past_100 (p : Z) : 100 < p -> select_status p = Some 4%nat.
Proof.
  intros H. unfold select_status.
  destruct (Z.leb_spec 0 p); [|lia].
  destruct (Z.leb_spec 20 p); [|lia].
  destruct (Z.leb_spec 50 p); [|lia].
  destruct (Z.leb_spec 75 p); [|lia].
  destruct (Z.leb_spec 90 p); [|lia].
  destruct (Z.eqb_spec p 100); [lia|reflexivity].
Qed.

(** C5. With a total of 8192 bytes and blocks of 4096, the second callback
    shows 100 percent under the sixth label and the third callback, with a
    larger byte count, shows 150 percent under the fifth label again. *)
Theorem progress_label_reverts_past_100 :
  progress_percent 2 4096 8192 = Ok 100
  /\ select_status 100 = Some 5%nat
  /\ progress_percent 3 4096 8192 = Ok 150
  /\ select_status 150 = Some 4%nat
  /\ download_progress_hook (Some "Server-Files-0.1.12.zip") 2 4096 8192
     = Ok (Shown ("-> Downloading Server-Files-0.1.12.zip | Progress: 100% ["
                  ++ PyStr.repeat bar_cell 40 ++ "] 8 KB / 8 KB | Status: "
                  ++ "[Complete]              "))
  /\ download_progress_hook (Some "Server-Files-0.1.12.zip") 3 4096 8192
     = Ok (Shown ("-> Downloading Server-Files-0.1.12.zip | Progress: 150% ["
                  ++ PyStr.repeat bar_cell 40 ++ "] 12 K / 8 KB | Status: "
                  ++ "[Just A Little More...] ")).
Proof. repeat split; vm_compute; reflexivity. Qed.

(** Whatever the byte count above the reporting threshold, a total size of
    zero makes the hook raise on the division. *)
Lemma download_progress_hook_zero_total (f : option string) (block_count block_size : Z) :
  1024 < block_count * block_size ->
  download_progress_hook f block_count block_size 0 = Raise ZeroDivisionError.
Proof.
  intros H. unfold download_progress_hook.
  destruct (Z.ltb_spec 1024 (block_count * block_size)); [reflexivity|lia].
Qed.

(** C6. Called with 8192 bytes transferred, the hook raises
    [ZeroDivisionError] for a total size of zero and [ValueError] for the
    total size of -1 that stands for an unknown length; no line is shown. *)
Theorem download_progress_hook_no_fallback :
  download_progress_hook (Some "Server-Files-0.1.12.zip") 1 8192 0
    = Raise ZeroDivisionError
  /\ download_progress_hook (Some "Server-Files-0.1.12.zip") 1 8192 (-1)
    = Raise ValueError.
Proof. split; reflexivity. Qed.

(** ** Runs of the orchestrator *)

(** *** What the sub-steps add to the trace *)

Lemma yes_no_loop_trace (question : string) (lines : list string) (tr : list event) :
  exists k, snd (yes_no_loop question lines tr)
            = (tr ++ List.repeat (Prompt (question ++ " | (Y)es/(N)o: ")) (S k))%list.
Proof.
  revert tr. induction lines as [|yn rest IH]; intros tr; cbn [yes_no_loop snd].
  - exists 0%nat. reflexivity.
  - destruct (PyStr.mem (PyStr.lower yn) ["y"; "yes"; "n"; "no"]).
    + exists 0%nat. reflexivity.
    + destruct (IH (tr ++ [Prompt (question ++ " | (Y)es/(N)o: ")])%list) as [k Hk].
      exists (S k). rewrite Hk, <- app_assoc. reflexivity.
Qed.

Lemma yes_no_loop_events (question : string) (lines rest : list string)
    (tr tr' : list event) (r : result bool) (e : event) :
  yes_no_loop question lines tr = (r, rest, tr') ->
  In e tr' -> In e tr \/ exists text, e = Prompt text.
Proof.
  intros Hyn Hin. destruct (yes_no_loop_trace question lines tr) as [k Hk].
  rewrite Hyn in Hk. cbn [snd] in Hk. subst tr'.
  apply in_app_or in Hin as [Hin|Hin]; [left; exact Hin|right].
  apply repeat_spec in Hin. eauto.
Qed.

Lemma find_modpack_directories_loop_events (curr_dir : string)
    (entries : list DirEntry) (e : event) :
  In e (fst (find_modpack_directories_loop curr_dir entries)) ->
  exists listing, e = PrintList listing.
Proof.
  induction entries as [|entry rest IH]; cbn [find_modpack_directories_loop].
  - intros [].
  - destruct (find_modpack_directories_loop curr_dir rest) as [evs dirs].
    destruct (entry_listing entry); cbn [fst In] in *; [|exact IH].
    intros [<-|Hin]; eauto.
Qed.

Lemma discovery_events (w : World) (e : event) :
  In e (discovery w) ->
  e = Print "-> Installing update..." \/ exists listing, e = PrintList listing.
Proof.
  unfold discovery. cbn [In]. intros [<-|Hin]; [left; reflexivity|right].
  apply in_app_or in Hin as [Hin|[<-|[]]]; eauto.
  eapply find_modpack_directories_loop_events; eauto.
Qed.

Lemma announced_events (c : Config) (latest : Release) (b : Branch) (e : event) :
  In e (announced c latest b) ->
  e = Print "-> Update started..." \/ e = Print "-> Getting latest version..."
  \/ e = Fetch (query_url c) \/ e = Prompt version_prompt
  \/ e = Print (announcement latest b).
Proof.
  unfold announced, preamble, version_prompts. intros Hin.
  apply in_app_or in Hin as [Hin|Hin].
  - cbn [In] in Hin. intuition auto.
  - apply in_app_or in Hin as [Hin|[<-|[]]]; [|tauto].
    destruct (cfg_current_version c); cbn [In] in Hin; intuition auto.
Qed.

(** *** The seven paths *)

#[local] Arguments build_query_url : simpl never.
#[local] Arguments update_branch : simpl never.
#[local] Arguments yes_no_loop : simpl never.
#[local] Arguments find_modpack_directories_loop : simpl never.
#[local] Arguments version_prompt : simpl never.

Lemma update_run_eq (w : World) (c : Config) (lines : list string)
    (out out' : result unit * Machine) :
  update_run w c lines out -> out = out' -> update_run w c lines out'.
Proof. intros H <-. exact H. Qed.

Ltac same_trace :=
  cbv zeta; unfold discovery, saving, announced, preamble, version_prompts;
  cbn; repeat rewrite <- app_assoc; reflexivity.

Lemma update_run_complete (w : World) (c : Config) (lines : list string) :
  update_run w c lines (update w (boot c lines)).
Proof.
  unfold update, boot, save_config, install_update, find_modpack_directories,
    yes_no, input, bind, print, emit, get_latest_version, get_self, set_self,
    ret, throw.
  cbn.
  change (build_query_url (read_config c) Endpoint.FILES) with (query_url c).
  destruct (registry w (query_url c)) as [latest|] eqn:Hreg; cbn.
  2:{ apply run_registry_down. exact Hreg. }
  destruct c as [mods pidx psize srt sdesc alphas [v|] dat];
    [|destruct lines as [|v lines]]; cbn.
  2:{ eapply run_no_version; [exact Hreg|reflexivity]. }
  all: destruct (update_branch (Some v) (parse_version latest) latest) eqn:Hb; cbn.
  all: try (match goal with
            | |- update_run ?w' ?c' ?l' _ =>
                match type of Hb with
                | _ = ?b => apply (run_settled w' c' l' latest v b Hreg eq_refl Hb); tauto
                end
            end).
  all: try (exfalso; unfold update_branch in Hb; cbn in Hb;
            destruct (String.eqb v (parse_version latest)), (has_server_files latest);
            discriminate).
  all: destruct (yes_no_loop _ _ _) as [[[[|]|e] rest] tr] eqn:Hyn; cbn.
  all: try destruct (archive_ok w "Server-Files-0.1.12.zip") eqn:Hzip; cbn.
  all: match goal with
       | |- update_run ?w' ?c' ?l' (Ok tt, _) =>
           eapply update_run_eq;
           [ first [ apply (run_installed w' c' l' latest v rest tr Hreg eq_refl Hb Hyn Hzip)
                   | apply (run_cancelled w' c' l' latest v rest tr Hreg eq_refl Hb Hyn) ]
           | same_trace ]
       | |- update_run ?w' ?c' ?l' (Raise FileNotFoundError, _) =>
           eapply update_run_eq;
           [ apply (run_extract_failed w' c' l' latest v rest tr Hreg eq_refl Hb Hyn Hzip)
           | same_trace ]
       | |- update_run ?w' ?c' ?l' (Raise ?e', _) =>
           eapply update_run_eq;
           [ apply (run_unanswered w' c' l' latest v e' rest tr Hreg eq_refl Hb Hyn)
           | same_trace ]
       end.
Qed.

(** *** The chain of tests *)

Lemma update_branch_reachable (current : option string) (latest_version : string)
    (latest_release : Release) :
  In (update_branch current latest_version latest_release)
     [NewVersionFound; OnLatestVersion; NoServerFilesFound].
Proof.
  unfold update_branch.
  destruct (version_eqb current latest_version), (has_server_files latest_release);
    cbn; tauto.
Qed.

Lemma update_branch_Decide (cur : string) (latest : Release) :
  branch_decision (update_branch (Some cur) (parse_version latest) latest)
  = Some (Decide (Some cur) latest).
Proof.
  unfold update_branch, Decide, version_eqb.
  destruct (String.eqb cur (parse_version latest)), (has_server_files latest);
    reflexivity.
Qed.

Lemma update_branch_new_version (cur : string) (latest : Release) :
  update_branch (Some cur) (parse_version latest) latest = NewVersionFound ->
  cur <> parse_version latest /\ has_server_files latest = true.
Proof.
  unfold update_branch, version_eqb.
  destruct (String.eqb_spec cur (parse_version latest)), (has_server_files latest);
    cbn; intros H; try discriminate H. split; [assumption|reflexivity].
Qed.

(** Breaks a hypothesis [In e tr], for [tr] the trace of one path, into
    the events it can be. *)
Ltac trace_cases H :=
  repeat match type of H with
         | In _ (_ ++ _)%list => apply in_app_or in H as [H|H]
         | In _ (_ :: _) => destruct H as [H|H]
         | In _ [] => destruct H
         | In _ (saving _) => unfold saving in H
         | In _ (preamble _) => unfold preamble in H
         | In _ (announced _ _ _) => apply announced_events in H
         | In _ (discovery _) => apply discovery_events in H
         | In _ ?tr =>
             match goal with
             | Hyn : yes_no_loop _ _ _ = (_, _, tr) |- _ =>
                 apply (yes_no_loop_events _ _ _ _ _ _ _ Hyn) in H
             end
         | _ \/ _ => destruct H as [H|H]
         | exists _, _ => destruct H as [? H]
         end.

(** C10. The chain of tests always selects one of its first three arms,
    and no run of [update] prints the line of the fourth arm. *)
Theorem no_new_version_arm_unreachable :
  (forall current latest_version latest_release,
      In (update_branch current latest_version latest_release)
         [NewVersionFound; OnLatestVersion; NoServerFilesFound])
  /\ (forall w c lines,
        ~ In (Print "-> No new version found.")
             (trace (snd (update w (boot c lines))))).
Proof.
  split; [exact update_branch_reachable|].
  intros w c lines Hin.
  pose proof (update_run_complete w c lines) as R.
  destruct R as [ | | latest cur b Hreg Hres Hb [-> | ->] | | | | ];
    cbn [snd trace] in Hin; trace_cases Hin; cbn in Hin; discriminate Hin.
Qed.

Lemma yes_no_loop_extends (question : string) (lines rest : list string)
    (tr tr' : list event) (r : result bool) :
  yes_no_loop question lines tr = (r, rest, tr') ->
  exists prompts, tr' = (tr ++ prompts)%list.
Proof.
  intros Hyn. destruct (yes_no_loop_trace question lines tr) as [k Hk].
  rewrite Hyn in Hk. cbn [snd] in Hk. eauto.
Qed.

(** C3. Once the current version is resolved (the stored one, or else the
    line read at the version prompt, which comes before any decision is
    announced), the arm [update] enters is the one the fixed priority
    gives: UpToDate when the versions are equal, whatever the server
    files; otherwise NoServerFiles when there are none; otherwise
    UpdateAvailable. *)
Theorem update_decides_by_priority (w : World) (c : Config) (lines : list string)
    (latest : Release) (cur : string) :
  registry w (query_url c) = Some latest ->
  resolved_version c lines = Some cur ->
  exists b post,
    branch_decision b = Some (Decide (Some cur) latest)
    /\ trace (snd (update w (boot c lines)))
       = (preamble c ++ version_prompts c
            ++ [Print (announcement latest b)] ++ post)%list.
Proof.
  intros Hreg Hres.
  pose proof (update_run_complete w c lines) as R.
  destruct R as [ Hreg' | latest' Hreg' Hres'
                | latest' cur' b Hreg' Hres' Hb _
                | latest' cur' e rest tr Hreg' Hres' Hb Hyn
                | latest' cur' rest tr Hreg' Hres' Hb Hyn
                | latest' cur' rest tr Hreg' Hres' Hb Hyn Hzip
                | latest' cur' rest tr Hreg' Hres' Hb Hyn Hzip ];
    try congruence;
    assert (latest' = latest) by congruence; assert (cur' = cur) by congruence;
    subst latest' cur'; cbn [snd trace].
  1: { exists b. eexists. split.
       - rewrite <- Hb. apply update_branch_Decide.
       - unfold announced. rewrite <- !app_assoc. reflexivity. }
  all: exists NewVersionFound;
      destruct (yes_no_loop_extends _ _ _ _ _ _ Hyn) as [prompts ->];
      eexists; (split; [rewrite <- Hb; apply update_branch_Decide|]);
      unfold announced; rewrite <- !app_assoc; reflexivity.
Qed.

Lemma update_decides_by_priority_witness :
  registry example_world (query_url example_config) = Some example_latest
  /\ resolved_version default_config ["0.1.13"] = Some "0.1.13"
  /\ exists b post,
       branch_decision b = Some (Decide (Some "0.1.13") example_latest)
       /\ trace (snd (update example_world (boot default_config ["0.1.13"])))
          = (preamble default_config ++ version_prompts default_config
               ++ [Print (announcement example_latest b)] ++ post)%list.
Proof.
  split; [reflexivity|]. split; [reflexivity|].
  apply (update_decides_by_priority example_world default_config ["0.1.13"]
           example_latest "0.1.13"); reflexivity.
Defined.

(** *** What is written back *)

Lemma config_of_resolved (c : Config) (cur : string) :
  config_of (set_current_version (Some cur) (read_config c))
  = with_current_version c (Some cur).
Proof. reflexivity. Qed.

Lemma config_of_staged (f : option string) (u : Updater) :
  config_of (set_dph_filename f u) = config_of u.
Proof. reflexivity. Qed.

Lemma with_current_version_same (c : Config) (v : option string) :
  cfg_current_version c = v -> with_current_version c v = c.
Proof. intros <-. destruct c; reflexivity. Qed.

(** C1. The stored version is 0.1.11 and the latest release is 0.1.13;
    the user confirms and the installation completes ("-> Update
    complete!" is printed, the run returns), and the version written back
    to the configuration is still 0.1.11, not the latest release's parsed
    version: the confirmed arm of [update] never records the new
    version. *)
Theorem confirmed_update_keeps_recorded_version :
  fst (update example_world (boot example_config ["y"])) = Ok tt
  /\ In (Print "-> Update complete!")
        (trace (snd (update example_world (boot example_config ["y"]))))
  /\ cfg_current_version
       (config_json (snd (update example_world (boot example_config ["y"]))))
     <> Some (parse_version example_latest).
Proof.
  split; [vm_compute; reflexivity|]. split.
  - vm_compute. tauto.
  - vm_compute. discriminate.
Qed.

(** C4, as stated, fails: the document starts without a current version,
    the user enters 0.1.11 at the version prompt and declines the update,
    and the document written back holds 0.1.11, not the absent version it
    started with. *)
Lemma declined_update_records_entered_version :
  In (Print "-> Update cancelled.")
     (trace (snd (update example_world (boot default_config ["0.1.11"; "n"]))))
  /\ cfg_current_version
       (config_json (snd (update example_world (boot default_config ["0.1.11"; "n"]))))
     <> cfg_current_version default_config.
Proof.
  split.
  - vm_compute. tauto.
  - vm_compute. discriminate.
Qed.

Lemma yes_no_loop_step (question yn : string) (rest : list string) (tr : list event) :
  yes_no_loop question (yn :: rest) tr
  = if accepted yn
    then (Ok (affirmative yn), rest,
          (tr ++ [Prompt (question ++ " | (Y)es/(N)o: ")])%list)
    else yes_no_loop question rest
           (tr ++ [Prompt (question ++ " | (Y)es/(N)o: ")])%list.
Proof. reflexivity. Qed.

Lemma yes_no_loop_first_accepted (question : string) (skipped : list string)
    (answer : string) (rest : list string) (tr : list event) :
  forallb (fun line => negb (accepted line)) skipped = true ->
  accepted answer = true ->
  yes_no_loop question (skipped ++ answer :: rest)%list tr
  = (Ok (affirmative answer), rest,
     (tr ++ List.repeat (Prompt (question ++ " | (Y)es/(N)o: "))
                        (S (List.length skipped)))%list).
Proof.
  intros Hskip Hans. revert tr.
  induction skipped as [|line skipped IH]; intros tr.
  - cbn [app List.length]. rewrite yes_no_loop_step, Hans. reflexivity.
  - cbn [forallb] in Hskip. apply andb_true_iff in Hskip as [Hline Hskip].
    apply negb_true_iff in Hline.
    cbn [app List.length]. rewrite yes_no_loop_step, Hline, (IH Hskip).
    rewrite <- app_assoc. reflexivity.
Qed.

Lemma declines_accepted (yn : string) :
  declines yn = true -> accepted yn = true /\ affirmative yn = false.
Proof.
  unfold declines, accepted, affirmative, PyStr.mem. cbn [existsb].
  rewrite !orb_false_r. intros H. apply orb_true_iff in H as [H|H];
    apply String.eqb_eq in H; rewrite H; split; reflexivity.
Qed.

Lemma update_branch_available (cur : string) (latest : Release) :
  cur <> parse_version latest -> has_server_files latest = true ->
  update_branch (Some cur) (parse_version latest) latest = NewVersionFound.
Proof.
  intros Hne Hfiles. unfold update_branch, version_eqb. rewrite Hfiles.
  destruct (String.eqb_spec cur (parse_version latest)); [contradiction|reflexivity].
Qed.

(** C4, amended. When an update is available (the resolved current
    version differs from the latest one and there are server files) and
    the first accepted answer to the confirmation is "n" or "no", the run
    completes, prints "-> Update cancelled." and writes the configuration
    back, and nothing is unpacked.  The version written is the resolved
    current version: with a version stored at the start the whole document
    is written back unchanged; with none, the version entered at the
    version prompt is recorded and the other fields are unchanged. *)
Theorem declined_update_persists_resolved_version (w : World) (c : Config)
    (lines : list string) (latest : Release) (cur : string)
    (skipped : list string) (answer : string) (rest : list string) :
  registry w (query_url c) = Some latest ->
  resolved_version c lines = Some cur ->
  cur <> parse_version latest ->
  has_server_files latest = true ->
  stdin_after_version c lines = (skipped ++ answer :: rest)%list ->
  forallb (fun line => negb (accepted line)) skipped = true ->
  declines answer = true ->
  update w (boot c lines)
  = (Ok tt,
     mkMachine (set_current_version (Some cur) (read_config c)) rest
       ((announced c latest NewVersionFound
           ++ List.repeat (Prompt ("-> Do you want to update?" ++ " | (Y)es/(N)o: "))
                          (S (List.length skipped)))
          ++ Print "-> Update cancelled."
             :: saving (set_current_version (Some cur) (read_config c)))%list
       (with_current_version c (Some cur)))
  /\ (forall archive,
        ~ In (ExtractAll archive) (trace (snd (update w (boot c lines)))))
  /\ (forall v, cfg_current_version c = Some v ->
        config_json (snd (update w (boot c lines))) = c)
  /\ (cfg_current_version c = None ->
      cfg_current_version (config_json (snd (update w (boot c lines))))
      = hd_error lines).
Proof.
  intros Hreg Hres Hne Hfiles Hstdin Hskip Hdecl.
  destruct (declines_accepted answer Hdecl) as [Hacc Haff].
  pose proof (update_branch_available cur latest Hne Hfiles) as Hb.
  pose proof (yes_no_loop_first_accepted "-> Do you want to update?" skipped
                answer rest (announced c latest NewVersionFound) Hskip Hacc) as Hloop.
  rewrite <- Hstdin, Haff in Hloop.
  assert (Hrun : update w (boot c lines)
    = (Ok tt,
       mkMachine (set_current_version (Some cur) (read_config c)) rest
         ((announced c latest NewVersionFound
             ++ List.repeat (Prompt ("-> Do you want to update?" ++ " | (Y)es/(N)o: "))
                            (S (List.length skipped)))
            ++ Print "-> Update cancelled."
               :: saving (set_current_version (Some cur) (read_config c)))%list
         (with_current_version c (Some cur)))).
  { pose proof (update_run_complete w c lines) as R.
    destruct R as [ Hreg' | latest' Hreg' Hres'
                  | latest' cur' b Hreg' Hres' Hb' Hsettled
                  | latest' cur' e rest' tr Hreg' Hres' Hb' Hyn
                  | latest' cur' rest' tr Hreg' Hres' Hb' Hyn
                  | latest' cur' rest' tr Hreg' Hres' Hb' Hyn Hzip
                  | latest' cur' rest' tr Hreg' Hres' Hb' Hyn Hzip ];
      try congruence;
      assert (latest' = latest) by congruence; assert (cur' = cur) by congruence;
      subst latest' cur'.
    1: { exfalso. rewrite Hb in Hb'. subst b. destruct Hsettled; discriminate. }
    all: rewrite Hloop in Hyn; try discriminate Hyn;
      injection Hyn as <- <-; reflexivity. }
  rewrite Hrun. cbn [snd trace config_json]. split; [reflexivity|]. split; [|split].
  - intros archive Hin.
    apply in_app_or in Hin as [Hin|Hin];
      [apply in_app_or in Hin as [Hin|Hin];
         [|apply repeat_spec in Hin; discriminate Hin]|];
      trace_cases Hin; cbn in Hin; discriminate Hin.
  - intros v Hv. apply with_current_version_same.
    unfold resolved_version in Hres. rewrite Hv in Hres. congruence.
  - intros Hnone. cbn [cfg_current_version with_current_version].
    unfold resolved_version in Hres. rewrite Hnone in Hres. congruence.
Qed.

Lemma declined_update_persists_resolved_version_witness :
  registry example_world (query_url example_config) = Some example_latest
  /\ resolved_version example_config ["maybe"; "No"] = Some "0.1.11"
  /\ "0.1.11" <> parse_version example_latest
  /\ has_server_files example_latest = true
  /\ stdin_after_version example_config ["maybe"; "No"] = (["maybe"] ++ "No" :: [])%list
  /\ forallb (fun line => negb (accepted line)) ["maybe"] = true
  /\ declines "No" = true
  /\ config_json (snd (update example_world (boot example_config ["maybe"; "No"])))
     = example_config.
Proof.
  assert (Hne : "0.1.11" <> parse_version example_latest) by (vm_compute; discriminate).
  repeat (split; [first [reflexivity | exact Hne]|]).
  destruct (declined_update_persists_resolved_version
              example_world example_config ["maybe"; "No"] example_latest "0.1.11"
              ["maybe"] "No" [] eq_refl eq_refl Hne eq_refl eq_refl eq_refl eq_refl)
    as (_ & _ & Hsame & _).
  apply (Hsame "0.1.11"). reflexivity.
Defined.

(** *** Download and staging *)

(** No run of [update] retrieves anything, whatever the registry serves,
    and the only archive it ever unpacks is the fixed one. *)
Lemma update_never_retrieves (w : World) (c : Config) (lines : list string) :
  (forall url dest,
      ~ In (Retrieve url dest) (trace (snd (update w (boot c lines)))))
  /\ (forall archive,
        In (ExtractAll archive) (trace (snd (update w (boot c lines)))) ->
        archive = "Server-Files-0.1.12.zip").
Proof.
  pose proof (update_run_complete w c lines) as R.
  destruct R as [ Hreg | latest Hreg Hres
                | latest cur b Hreg Hres Hb [-> | ->]
                | latest cur e rest tr Hreg Hres Hb Hyn
                | latest cur rest tr Hreg Hres Hb Hyn
                | latest cur rest tr Hreg Hres Hb Hyn Hzip
                | latest cur rest tr Hreg Hres Hb Hyn Hzip ];
    cbv zeta; cbn [snd trace];
    (split; [intros url dest Hin|intros archive Hin]);
    trace_cases Hin; cbn in Hin; try discriminate Hin.
  injection Hin as <-. reflexivity.
Qed.

(** C2. With release 0.1.13 the latest, a server pack on the registry and
    the user confirming, [update] neither queries the additional files nor
    retrieves the artifact, and unpacks "Server-Files-0.1.12.zip";
    [get_server_files], which the confirmed path does not call, is what
    retrieves "Server-Files-0.1.13.zip". *)
Theorem confirmed_update_skips_download :
  update_branch (Some "0.1.11") (parse_version example_latest) example_latest
    = NewVersionFound
  /\ trace (snd (update example_world (boot example_config ["y"])))
     = [Print "-> Update started...";
        Print "-> Getting latest version...";
        Fetch (query_url example_config);
        Print "-> New version found! (0.1.13)";
        Prompt "-> Do you want to update? | (Y)es/(N)o: ";
        Print "-> Installing update...";
        PrintList ["server.properties"; "mods"; "world"];
        PrintList ["monday.tar"];
        PrintList ["/srv/atm9"];
        ExtractAll "Server-Files-0.1.12.zip";
        Print "-> Update installed!";
        Print "-> Update complete!";
        Print "-> Saving config...";
        WriteConfig example_config;
        Print "-> Config saved!"]
  /\ trace (snd (get_server_files example_world example_latest
                   (boot example_config [])))
     = [Log ("Querying additional-files endpoint: "
             ++ build_additional_files_url (read_config example_config) example_latest);
        Fetch (build_additional_files_url (read_config example_config) example_latest);
        Log "Additional file(s) for All the Mods 9-0.1.13: ";
        Retrieve (build_download_url (read_config example_config) example_server_files)
                 "Server-Files-0.1.13.zip"].
Proof. repeat split; vm_compute; reflexivity. Qed.

(** * Further properties of the code *)

(** ** Version tags *)

Lemma split_single (sep : ascii) (s p : string) :
  PyStr.split sep s = [p] -> s = p.
Proof.
  revert p. induction s as [|c rest IH]; simpl; intros p H.
  - injection H as <-. reflexivity.
  - destruct (Ascii.eqb c sep).
    + injection H as _ H. exfalso. exact (split_not_nil _ _ H).
    + destruct (PyStr.split sep rest) as [|piece pieces] eqn:Hs;
        [exfalso; exact (split_not_nil _ _ Hs)|].
      injection H as <- ->. rewrite (IH piece eq_refl). reflexivity.
Qed.

Lemma split_last_spec (sep : ascii) (s : string) :
  has_char sep (last (PyStr.split sep s) "") = false
  /\ (s = last (PyStr.split sep s) ""
      \/ exists prefix, s = prefix ++ String sep (last (PyStr.split sep s) "")).
Proof.
  induction s as [|c rest [IHc IHs]]; [simpl; auto|].
  cbn [PyStr.split]. destruct (Ascii.eqb c sep) eqn:Hc.
  - rewrite last_cons_not_nil by apply split_not_nil.
    apply Ascii.eqb_eq in Hc. subst c. split; [exact IHc|right].
    destruct IHs as [Hwhole|[prefix Hprefix]].
    + exists "". rewrite <- Hwhole. reflexivity.
    + exists (String sep prefix). rewrite Hprefix at 1. reflexivity.
  - destruct (PyStr.split sep rest) as [|piece [|piece' pieces]] eqn:Hs.
    + exfalso. exact (split_not_nil _ _ Hs).
    + cbn [last] in *. rewrite (split_single _ _ _ Hs).
      split; [cbn [has_char]; rewrite Hc; exact IHc|left; reflexivity].
    + change (last (String c piece :: piece' :: pieces) "")
        with (last (piece :: piece' :: pieces) "").
      split; [exact IHc|right].
      destruct IHs as [Hwhole|[prefix Hprefix]].
      * exfalso. rewrite <- Hwhole in IHc.
        rewrite (split_without_sep _ _ IHc) in Hs. discriminate Hs.
      * exists (String c prefix). rewrite Hprefix at 1. reflexivity.
Qed.

(** X1. The version tag never contains the delimiter, and the display
    name is either the tag itself or ends in the delimiter followed by the
    tag: the tag is everything after the last "-". *)
Theorem parse_version_after_last_delimiter (release : Release) :
  has_char "-" (parse_version release) = false
  /\ (display_name release = parse_version release
      \/ exists prefix,
           display_name release = prefix ++ "-" ++ parse_version release).
Proof. unfold parse_version. apply split_last_spec. Qed.

(** ** Size formatting, in general *)

Lemma unit_index_bounds (size : Z) :
  0 < size ->
  0 <= Z.log2 size / 10
  /\ 1024 ^ (Z.log2 size / 10) <= size < 1024 * 1024 ^ (Z.log2 size / 10).
Proof.
  intros Hpos.
  pose proof (Z.log2_nonneg size) as HL.
  destruct (Z.log2_spec size Hpos) as [Hlo Hhi].
  pose proof (Z.div_mod (Z.log2 size) 10 ltac:(lia)) as Hdm.
  pose proof (Z.mod_pos_bound (Z.log2 size) 10 ltac:(lia)) as Hm.
  assert (Hi : 0 <= Z.log2 size / 10) by (apply Z.div_pos; lia).
  split; [exact Hi|].
  change 1024 with (2 ^ 10).
  rewrite <- Z.pow_mul_r by lia. rewrite <- Z.pow_add_r by lia.
  split.
  - apply Z.le_trans with (2 ^ Z.log2 size); [|exact Hlo].
    apply Z.pow_le_mono_r; lia.
  - apply Z.lt_le_trans with (2 ^ Z.succ (Z.log2 size)); [exact Hhi|].
    apply Z.pow_le_mono_r; lia.
Qed.

Lemma unit_index_small (size : Z) :
  0 < size -> (Z.log2 size / 10 < 9 <-> size < 1024 ^ 9).
Proof.
  intros Hpos. destruct (unit_index_bounds size Hpos) as (Hi & Hlo & Hhi).
  split; intros H.
  - apply Z.lt_le_trans with (1024 * 1024 ^ (Z.log2 size / 10)); [exact Hhi|].
    change (1024 ^ 9) with (1024 * 1024 ^ 8).
    apply Z.mul_le_mono_nonneg_l; [lia|]. apply Z.pow_le_mono_r; lia.
  - destruct (Z.lt_ge_cases (Z.log2 size / 10) 9) as [Hlt|Hge]; [exact Hlt|].
    exfalso. assert (1024 ^ 9 <= 1024 ^ (Z.log2 size / 10))
      by (apply Z.pow_le_mono_r; lia). lia.
Qed.

Lemma size_name_lookup (i : Z) :
  0 <= i < 9 -> exists unit_name, nth_error size_name (Z.to_nat i) = Some unit_name.
Proof.
  intros Hi.
  assert (H : (Z.to_nat i < 9)%nat) by lia.
  destruct (Z.to_nat i) as [|[|[|[|[|[|[|[|[|n]]]]]]]]];
    cbn; eauto. lia.
Qed.

Lemma size_name_overflow (i : Z) :
  9 <= i -> nth_error size_name (Z.to_nat i) = None.
Proof. intros Hi. apply nth_error_None. cbn. lia. Qed.

Lemma convert_size_by_range (size_bytes : Z) (rounded : bool) :
  (size_bytes < 0 -> convert_size size_bytes rounded = Raise ValueError)
  /\ (1024 ^ 9 <= size_bytes -> convert_size size_bytes rounded = Raise IndexError)
  /\ (0 <= size_bytes < 1024 ^ 9 ->
      exists text, convert_size size_bytes rounded = Ok text).
Proof.
  unfold convert_size. repeat split.
  - intros H. destruct (Z.eqb_spec size_bytes 0); [lia|].
    destruct (Z.ltb_spec size_bytes 0); [reflexivity|lia].
  - intros H. assert (0 < 1024 ^ 9) by reflexivity.
    destruct (Z.eqb_spec size_bytes 0); [lia|].
    destruct (Z.ltb_spec size_bytes 0); [lia|].
    rewrite size_name_overflow; [reflexivity|].
    destruct (Z.lt_ge_cases (Z.log2 size_bytes / 10) 9) as [Hlt|Hge]; [|exact Hge].
    apply unit_index_small in Hlt; lia.
  - intros [Hlo Hhi].
    destruct (Z.eqb_spec size_bytes 0); [eauto|].
    destruct (Z.ltb_spec size_bytes 0); [lia|].
    assert (Hpos : 0 < size_bytes) by lia.
    destruct (size_name_lookup (Z.log2 size_bytes / 10)) as [unit_name ->]; [|eauto].
    split; [apply unit_index_bounds; exact Hpos|apply unit_index_small; assumption].
Qed.

(** The integer arithmetic of [convert_size] coincides with the float
    computation of the source for sizes from 0 up to 2^46 bytes, where the
    floored logarithm and the quotient are exact, and from 1024^9 up to
    1024^100, where the unit index is past the table whatever the rounding
    of the logarithm (just below a large power of 1024 the float logarithm
    rounds up to the next integer).  The properties below are stated on
    these ranges. *)

(** X2. [convert_size] raises [ValueError] for every negative size,
    returns a text for every size from 0 up to 2^46 bytes, and raises
    [IndexError] for sizes from 1024^9 bytes on (the unit table has nine
    entries), with or without rounding. *)
Theorem convert_size_domain (size_bytes : Z) (rounded : bool) :
  (size_bytes < 0 -> convert_size size_bytes rounded = Raise ValueError)
  /\ (0 <= size_bytes < 2 ^ 46 ->
      exists text, convert_size size_bytes rounded = Ok text)
  /\ (1024 ^ 9 <= size_bytes < 1024 ^ 100 ->
      convert_size size_bytes rounded = Raise IndexError).
Proof.
  destruct (convert_size_by_range size_bytes rounded) as (Hneg & Hbig & Hok).
  split; [exact Hneg|]. split.
  - intros [Hlo Hhi]. apply Hok. split; [exact Hlo|].
    apply Z.lt_trans with (2 ^ 46); [exact Hhi|reflexivity].
  - intros [Hlo _]. exact (Hbig Hlo).
Qed.

Lemma convert_size_domain_witness :
  (-1 < 0 /\ convert_size (-1) true = Raise ValueError)
  /\ (0 <= 1048575 < 2 ^ 46 /\ exists text, convert_size 1048575 true = Ok text)
  /\ (1024 ^ 9 <= 1024 ^ 9 < 1024 ^ 100
      /\ convert_size (1024 ^ 9) false = Raise IndexError).
Proof.
  assert (H1 : 0 <= 1048575 < 2 ^ 46) by (split; [discriminate|reflexivity]).
  assert (H2 : 1024 ^ 9 <= 1024 ^ 9 < 1024 ^ 100) by (split; [apply Z.le_refl|reflexivity]).
  split; [|split].
  - split; [reflexivity|].
    apply (proj1 (convert_size_domain (-1) true)). reflexivity.
  - split; [exact H1|].
    exact (proj1 (proj2 (convert_size_domain 1048575 true)) H1).
  - split; [exact H2|].
    exact (proj2 (proj2 (convert_size_domain (1024 ^ 9) false)) H2).
Defined.

Lemma round_half_even_nearest (n d : Z) :
  0 < d ->
  (n / d <= round_half_even n d <= n / d + 1)
  /\ 2 * Z.abs (round_half_even n d * d - n) <= d.
Proof.
  intros Hd. unfold round_half_even.
  pose proof (Z.div_mod n d ltac:(lia)) as Hdm.
  pose proof (Z.mod_pos_bound n d Hd) as Hm.
  destruct (Z.ltb_spec (2 * (n mod d)) d); [split; [lia|nia]|].
  destruct (Z.ltb_spec d (2 * (n mod d))); [split; [lia|nia]|].
  destruct (Z.even (n / d)); split; try lia; nia.
Qed.

Lemma convert_size_rounded_in_model (size_bytes : Z) :
  0 < size_bytes < 1024 ^ 9 ->
  exists (n : Z) (k : nat) (unit_name : string),
    nth_error size_name k = Some unit_name
    /\ 1024 ^ Z.of_nat k <= size_bytes < 1024 * 1024 ^ Z.of_nat k
    /\ 1 <= n <= 1024
    /\ 2 * Z.abs (n * 1024 ^ Z.of_nat k - size_bytes) <= 1024 ^ Z.of_nat k
    /\ convert_size size_bytes true = Ok (PyStr.of_Z n ++ " " ++ unit_name).
Proof.
  intros [Hpos Hhi].
  destruct (unit_index_bounds size_bytes Hpos) as (Hi & Hlo & Hup).
  pose proof (proj2 (unit_index_small size_bytes Hpos) Hhi) as Hi9.
  destruct (size_name_lookup (Z.log2 size_bytes / 10)) as [unit_name Hunit]; [lia|].
  set (i := Z.log2 size_bytes / 10) in *.
  assert (Hp : 0 < 1024 ^ i) by (apply Z.pow_pos_nonneg; lia).
  destruct (round_half_even_nearest size_bytes (1024 ^ i) Hp) as [Hq Hnear].
  exists (round_half_even size_bytes (1024 ^ i)), (Z.to_nat i), unit_name.
  rewrite Z2Nat.id by exact Hi.
  repeat split; try assumption.
  - assert (1 <= size_bytes / 1024 ^ i) by (apply Z.div_le_lower_bound; lia). lia.
  - assert (size_bytes / 1024 ^ i < 1024) by (apply Z.div_lt_upper_bound; lia). lia.
  - unfold convert_size.
    destruct (Z.eqb_spec size_bytes 0); [lia|].
    destruct (Z.ltb_spec size_bytes 0); [lia|].
    fold i. rewrite Hunit. reflexivity.
Qed.

(** X3. With rounding enabled, a size from 1 byte up to 2^46 bytes is
    shown as a whole number of the unit whose power of 1024 is the largest
    not above the size; the number is the nearest one, and it lies between
    1 and 1024, both included. *)
Theorem convert_size_rounded_nearest_unit (size_bytes : Z) :
  0 < size_bytes < 2 ^ 46 ->
  exists (n : Z) (k : nat) (unit_name : string),
    nth_error size_name k = Some unit_name
    /\ 1024 ^ Z.of_nat k <= size_bytes < 1024 * 1024 ^ Z.of_nat k
    /\ 1 <= n <= 1024
    /\ 2 * Z.abs (n * 1024 ^ Z.of_nat k - size_bytes) <= 1024 ^ Z.of_nat k
    /\ convert_size size_bytes true = Ok (PyStr.of_Z n ++ " " ++ unit_name).
Proof.
  intros [Hlo Hhi]. apply convert_size_rounded_in_model.
  split; [exact Hlo|]. apply Z.lt_trans with (2 ^ 46); [exact Hhi|reflexivity].
Qed.

Lemma convert_size_rounded_nearest_unit_witness :
  0 < 1048575 < 2 ^ 46
  /\ exists (n : Z) (k : nat) (unit_name : string),
       nth_error size_name k = Some unit_name
       /\ 1024 ^ Z.of_nat k <= 1048575 < 1024 * 1024 ^ Z.of_nat k
       /\ 1 <= n <= 1024
       /\ 2 * Z.abs (n * 1024 ^ Z.of_nat k - 1048575) <= 1024 ^ Z.of_nat k
       /\ convert_size 1048575 true = Ok (PyStr.of_Z n ++ " " ++ unit_name).
Proof.
  assert (H : 0 < 1048575 < 2 ^ 46) by (split; reflexivity).
  split; [exact H|]. exact (convert_size_rounded_nearest_unit 1048575 H).
Defined.

(** ** The progress hook, in general *)

Lemma convert_size_cases (size_bytes : Z) (rounded : bool) :
  (size_bytes < 0 /\ convert_size size_bytes rounded = Raise ValueError)
  \/ (1024 ^ 9 <= size_bytes /\ convert_size size_bytes rounded = Raise IndexError)
  \/ (0 <= size_bytes < 1024 ^ 9
      /\ exists text, convert_size size_bytes rounded = Ok text).
Proof.
  destruct (convert_size_by_range size_bytes rounded) as (Hneg & Hbig & Hok).
  destruct (Z.lt_ge_cases size_bytes 0) as [H|H]; [left; auto|right].
  destruct (Z.lt_ge_cases size_bytes (1024 ^ 9)) as [H'|H']; [right|left]; auto.
Qed.

Lemma select_status_bound (percent : Z) :
  0 <= percent -> exists k, select_status percent = Some k /\ (k < 6)%nat.
Proof.
  intros H. unfold select_status.
  destruct (Z.leb_spec 0 percent); [|lia].
  destruct (20 <=? percent), (50 <=? percent), (75 <=? percent),
    (90 <=? percent), (percent =? 100); eexists; (split; [reflexivity|lia]).
Qed.

Lemma progress_percent_nonneg (block_count block_size total_size : Z) :
  0 <= block_count * block_size -> 0 < total_size ->
  0 <= Z.quot (block_count * block_size * 100) total_size.
Proof. intros Hb Ht. apply Z.quot_pos; lia. Qed.

Lemma download_progress_hook_outcomes_in_model (dph_filename : option string)
    (block_count block_size total_size : Z) :
  match download_progress_hook dph_filename block_count block_size total_size with
  | Ok Quiet => block_count * block_size <= 1024
  | Ok (Shown _) =>
      1024 < block_count * block_size < 1024 ^ 9
      /\ 0 < total_size < 1024 ^ 9 /\ dph_filename <> None
  | Raise ZeroDivisionError => 1024 < block_count * block_size /\ total_size = 0
  | Raise ValueError => 1024 < block_count * block_size /\ total_size < 0
  | Raise IndexError =>
      1024 < block_count * block_size /\ 0 < total_size
      /\ (1024 ^ 9 <= total_size \/ 1024 ^ 9 <= block_count * block_size)
  | Raise AttributeError =>
      1024 < block_count * block_size < 1024 ^ 9
      /\ 0 < total_size < 1024 ^ 9 /\ dph_filename = None
  | Raise _ => False
  end.
Proof.
  unfold download_progress_hook, progress_percent.
  destruct (Z.ltb_spec 1024 (block_count * block_size)) as [Hb|Hb]; [|exact Hb].
  destruct (Z.eqb_spec total_size 0) as [Ht|Ht]; cbn [rbind]; [auto|].
  destruct (convert_size_cases total_size true)
    as [[Hneg ->]|[[Hbig ->]|[Hin [dl_total ->]]]]; cbn [rbind].
  - auto.
  - assert (0 < 1024 ^ 9) by reflexivity. repeat split; auto; lia.
  - destruct (convert_size_cases (block_count * block_size) true)
      as [[Hneg' _]|[[Hbig' ->]|[Hin' [curr ->]]]]; cbn [rbind].
    + lia.
    + repeat split; auto; lia.
    + destruct dph_filename as [filename|]; [|repeat split; auto; lia].
      destruct (select_status_bound
                  (Z.quot (block_count * block_size * 100) total_size))
        as [k [-> _]]; [apply progress_percent_nonneg; lia|].
      repeat split; try lia. discriminate.
Qed.

(** X4. For byte counts and totals below 2^46, every outcome of the hook
    has one cause.  It stays quiet exactly up to 1024 bytes, whatever the
    total; above that a total of zero raises [ZeroDivisionError], a
    negative total raises [ValueError], a missing file name raises
    [AttributeError], and otherwise a line is shown.  The hook raises
    nothing else; in particular [status] is always bound when it is
    printed. *)
Theorem download_progress_hook_outcomes (dph_filename : option string)
    (block_count block_size total_size : Z) :
  block_count * block_size < 2 ^ 46 ->
  total_size < 2 ^ 46 ->
  match download_progress_hook dph_filename block_count block_size total_size with
  | Ok Quiet => block_count * block_size <= 1024
  | Ok (Shown _) =>
      1024 < block_count * block_size /\ 0 < total_size /\ dph_filename <> None
  | Raise ZeroDivisionError => 1024 < block_count * block_size /\ total_size = 0
  | Raise ValueError => 1024 < block_count * block_size /\ total_size < 0
  | Raise AttributeError =>
      1024 < block_count * block_size /\ 0 < total_size /\ dph_filename = None
  | Raise _ => False
  end.
Proof.
  intros Hb Ht.
  assert (Hsmall : 2 ^ 46 < 1024 ^ 9) by reflexivity.
  pose proof (download_progress_hook_outcomes_in_model
                dph_filename block_count block_size total_size) as H.
  destruct (download_progress_hook dph_filename block_count block_size total_size)
    as [[|line]|[]]; try exact H; try tauto; lia.
Qed.

Lemma download_progress_hook_outcomes_witness :
  1 * 8192 < 2 ^ 46 /\ -1 < 2 ^ 46
  /\ match download_progress_hook (Some "Server-Files-0.1.13.zip") 1 8192 (-1) with
     | Raise ValueError => 1024 < 1 * 8192 /\ -1 < 0
     | _ => False
     end.
Proof.
  assert (Hb : 1 * 8192 < 2 ^ 46) by reflexivity.
  assert (Ht : -1 < 2 ^ 46) by reflexivity.
  split; [exact Hb|]. split; [exact Ht|].
  exact (download_progress_hook_outcomes (Some "Server-Files-0.1.13.zip")
           1 8192 (-1) Hb Ht).
Defined.

Lemma download_progress_hook_shows_in_model (filename : string)
    (block_count block_size total_size : Z) :
  1024 < block_count * block_size < 1024 ^ 9 ->
  0 < total_size < 1024 ^ 9 ->
  exists rest,
    download_progress_hook (Some filename) block_count block_size total_size
    = Ok (Shown ("-> Downloading " ++ filename ++ " | Progress: " ++ rest)).
Proof.
  intros Hb Ht. unfold download_progress_hook, progress_percent.
  destruct (Z.ltb_spec 1024 (block_count * block_size)); [|lia].
  destruct (Z.eqb_spec total_size 0); [lia|]. cbn [rbind].
  destruct (convert_size_cases total_size true)
    as [[Hneg _]|[[Hbig _]|[_ [dl_total ->]]]]; try lia. cbn [rbind].
  destruct (convert_size_cases (block_count * block_size) true)
    as [[Hneg _]|[[Hbig _]|[_ [curr ->]]]]; try lia. cbn [rbind].
  destruct (select_status_bound
              (Z.quot (block_count * block_size * 100) total_size))
    as [k [-> _]]; [apply progress_percent_nonneg; lia|].
  eexists. reflexivity.
Qed.

(** X5. With a file name set, more than 1024 bytes transferred and both
    the byte count and a positive total below 2^46, the hook shows a line,
    and the line starts by naming the file. *)
Theorem download_progress_hook_shows (filename : string)
    (block_count block_size total_size : Z) :
  1024 < block_count * block_size < 2 ^ 46 ->
  0 < total_size < 2 ^ 46 ->
  exists rest,
    download_progress_hook (Some filename) block_count block_size total_size
    = Ok (Shown ("-> Downloading " ++ filename ++ " | Progress: " ++ rest)).
Proof.
  intros [Hb1 Hb2] [Ht1 Ht2].
  assert (Hsmall : 2 ^ 46 < 1024 ^ 9) by reflexivity.
  apply download_progress_hook_shows_in_model; lia.
Qed.

Lemma download_progress_hook_shows_witness :
  1024 < 700 * 8192 < 2 ^ 46 /\ 0 < 104857600 < 2 ^ 46
  /\ exists rest,
       download_progress_hook (Some "Server-Files-0.1.13.zip") 700 8192 104857600
       = Ok (Shown ("-> Downloading " ++ "Server-Files-0.1.13.zip"
                    ++ " | Progress: " ++ rest)).
Proof.
  assert (Hb : 1024 < 700 * 8192 < 2 ^ 46) by (split; reflexivity).
  assert (Ht : 0 < 104857600 < 2 ^ 46) by (split; reflexivity).
  split; [exact Hb|]. split; [exact Ht|].
  exact (download_progress_hook_shows "Server-Files-0.1.13.zip" 700 8192 104857600 Hb Ht).
Defined.

(** X6. For a percentage that is not negative the bar has 40 cells, filled
    ones first; the number of filled cells grows with the percentage and
    reaches 40 exactly from 100 percent on, so the bar never overflows. *)
Theorem progress_bar_cells (percent : Z) :
  0 <= percent ->
  (0 <= num_blocks percent <= 40)
  /\ (num_blocks percent = 40 <-> 100 <= percent)
  /\ (forall later, percent <= later -> num_blocks percent <= num_blocks later)
  /\ progress_bar percent
     = "[" ++ PyStr.repeat_nat bar_cell (Z.to_nat (num_blocks percent))
           ++ PyStr.repeat_nat " " (40 - Z.to_nat (num_blocks percent))
           ++ "]".
Proof.
  intros Hp. unfold num_blocks, bar_width.
  assert (Hq : forall p, 0 <= p ->
            Z.quot (40 * Z.min 100 p) 100 = (40 * Z.min 100 p) / 100)
    by (intros p H; apply Z.quot_div_nonneg; lia).
  assert (Hup : (40 * Z.min 100 percent) / 100 <= 40)
    by (apply Z.div_le_upper_bound; lia).
  assert (Hlo : 0 <= (40 * Z.min 100 percent) / 100)
    by (apply Z.div_pos; lia).
  repeat split.
  - rewrite Hq by exact Hp. exact Hlo.
  - rewrite Hq by exact Hp. exact Hup.
  - rewrite Hq by exact Hp. intros H.
    destruct (Z.lt_ge_cases percent 100) as [Hlt|Hge]; [exfalso|exact Hge].
    assert ((40 * Z.min 100 percent) / 100 < 40)
      by (apply Z.div_lt_upper_bound; lia). lia.
  - intros H. rewrite Z.min_l by lia. reflexivity.
  - intros later Hlater. apply Z.quot_le_mono; lia.
  - unfold progress_bar, PyStr.repeat, num_blocks, bar_width.
    rewrite Hq by exact Hp. rewrite Z2Nat.inj_sub by exact Hlo. reflexivity.
Qed.

Lemma progress_bar_cells_witness :
  0 <= 55
  /\ (0 <= num_blocks 55 <= 40)
  /\ (forall later, 55 <= later -> num_blocks 55 <= num_blocks later).
Proof.
  assert (H : 0 <= 55) by discriminate.
  destruct (progress_bar_cells 55 H) as (Hrange & _ & Hmono & _).
  split; [exact H|]. split; [exact Hrange|exact Hmono].
Defined.

(** X7. For a positive total below 2^46, as long as the bytes reported
    stay within the total the percentage lies between 0 and 100 and a
    later callback with at least as many bytes never selects an earlier
    label. *)
Theorem status_monotone_within_total
    (total_size count1 size1 count2 size2 : Z) :
  0 < total_size < 2 ^ 46 ->
  0 <= count1 * size1 <= count2 * size2 ->
  count2 * size2 <= total_size ->
  exists p1 p2 i j,
    progress_percent count1 size1 total_size = Ok p1
    /\ progress_percent count2 size2 total_size = Ok p2
    /\ 0 <= p1 <= p2 /\ p2 <= 100
    /\ select_status p1 = Some i /\ select_status p2 = Some j /\ (i <= j)%nat.
Proof.
  intros [Ht _] Hb Hmax. unfold progress_percent.
  destruct (Z.eqb_spec total_size 0); [lia|].
  set (p1 := Z.quot (count1 * size1 * 100) total_size).
  set (p2 := Z.quot (count2 * size2 * 100) total_size).
  assert (H1 : 0 <= p1) by (apply Z.quot_pos; lia).
  assert (H12 : p1 <= p2) by (apply Z.quot_le_mono; lia).
  assert (H2 : p2 <= 100).
  { unfold p2. rewrite Z.quot_div_nonneg by lia.
    apply Z.div_le_upper_bound; lia. }
  destruct (select_status_monotone_to_100 p1 p2 H1 H12 H2) as (i & j & Hi & Hj & Hij).
  exists p1, p2, i, j. repeat split; assumption.
Qed.

Lemma status_monotone_within_total_witness :
  0 < 16384 < 2 ^ 46 /\ 0 <= 1 * 8192 <= 2 * 8192 /\ 2 * 8192 <= 16384
  /\ exists p1 p2 i j,
       progress_percent 1 8192 16384 = Ok p1
       /\ progress_percent 2 8192 16384 = Ok p2
       /\ 0 <= p1 <= p2 /\ p2 <= 100
       /\ select_status p1 = Some i /\ select_status p2 = Some j /\ (i <= j)%nat.
Proof.
  assert (Ht : 0 < 16384 < 2 ^ 46) by (split; reflexivity).
  assert (Hb : 0 <= 1 * 8192 <= 2 * 8192) by (split; discriminate).
  assert (Hmax : 2 * 8192 <= 16384) by discriminate.
  split; [exact Ht|]. split; [exact Hb|]. split; [exact Hmax|].
  exact (status_monotone_within_total 16384 1 8192 2 8192 Ht Hb Hmax).
Defined.

(** ** Prompts, in general *)

Lemma yes_no_loop_cons (question yn : string) (rest : list string) (tr : list event) :
  yes_no_loop question (yn :: rest) tr
  = if accepted yn
    then (Ok (affirmative yn), rest,
          (tr ++ [Prompt (question ++ " | (Y)es/(N)o: ")])%list)
    else yes_no_loop question rest
           (tr ++ [Prompt (question ++ " | (Y)es/(N)o: ")])%list.
Proof. reflexivity. Qed.

Lemma repeat_snoc {A : Type} (x : A) (n : nat) :
  (List.repeat x n ++ [x])%list = List.repeat x (S n).
Proof. induction n as [|n IH]; cbn; [reflexivity|]. rewrite IH. reflexivity. Qed.

(** X8. [yes_no] skips every line that is not an accepted answer, asking
    again each time, and stops at the first accepted one: it returns
    whether that answer is a yes, has asked once per line read, and leaves
    the lines after it on standard input; the instance and the
    configuration are untouched. *)
Theorem yes_no_first_accepted (question : string) (skipped : list string)
    (answer : string) (rest : list string) (m : Machine) :
  forallb (fun line => negb (accepted line)) skipped = true ->
  accepted answer = true ->
  stdin m = (skipped ++ answer :: rest)%list ->
  yes_no question m
  = (Ok (affirmative answer),
     mkMachine (self m) rest
       (trace m ++ List.repeat (Prompt (question ++ " | (Y)es/(N)o: "))
                               (S (List.length skipped)))%list
       (config_json m)).
Proof.
  intros Hskip Hans Hin. unfold yes_no. rewrite Hin. clear Hin.
  generalize (trace m) as tr. revert Hskip.
  induction skipped as [|line skipped IH]; intros Hskip tr.
  - cbn [app List.length]. rewrite yes_no_loop_cons, Hans. reflexivity.
  - cbn [forallb] in Hskip. apply andb_true_iff in Hskip as [Hline Hskip].
    apply negb_true_iff in Hline.
    cbn [app List.length]. rewrite yes_no_loop_cons, Hline.
    specialize (IH Hskip (tr ++ [Prompt (question ++ " | (Y)es/(N)o: ")])%list).
    destruct (yes_no_loop question (skipped ++ answer :: rest)
                (tr ++ [Prompt (question ++ " | (Y)es/(N)o: ")])) as [[r rest'] tr'].
    injection IH as -> -> ->. rewrite <- app_assoc. reflexivity.
Qed.

Lemma yes_no_first_accepted_witness :
  forallb (fun line => negb (accepted line)) ["maybe"; ""; "yep"] = true
  /\ accepted "YES" = true
  /\ yes_no "-> Do you want to update?"
       (boot example_config ["maybe"; ""; "yep"; "YES"; "n"])
     = (Ok (affirmative "YES"),
        mkMachine (read_config example_config) ["n"]
          ([] ++ List.repeat (Prompt ("-> Do you want to update?" ++ " | (Y)es/(N)o: "))
                             (S (List.length ["maybe"; ""; "yep"])))%list
          example_config).
Proof.
  split; [reflexivity|]. split; [reflexivity|].
  apply (yes_no_first_accepted "-> Do you want to update?" ["maybe"; ""; "yep"]
           "YES" ["n"] (boot example_config ["maybe"; ""; "yep"; "YES"; "n"]));
    reflexivity.
Defined.

(** X9. When no line left on standard input is an accepted answer,
    [yes_no] raises [EOFError] after asking once per line and once more,
    with standard input used up. *)
Theorem yes_no_exhausts_stdin (question : string) (m : Machine) :
  forallb (fun line => negb (accepted line)) (stdin m) = true ->
  yes_no question m
  = (Raise EOFError,
     mkMachine (self m) []
       (trace m ++ List.repeat (Prompt (question ++ " | (Y)es/(N)o: "))
                               (S (List.length (stdin m))))%list
       (config_json m)).
Proof.
  unfold yes_no. generalize (trace m) as tr.
  induction (stdin m) as [|line lines IH]; intros tr Hskip.
  - reflexivity.
  - cbn [forallb] in Hskip. apply andb_true_iff in Hskip as [Hline Hskip].
    apply negb_true_iff in Hline.
    rewrite yes_no_loop_cons, Hline.
    specialize (IH (tr ++ [Prompt (question ++ " | (Y)es/(N)o: ")])%list Hskip).
    destruct (yes_no_loop question lines
                (tr ++ [Prompt (question ++ " | (Y)es/(N)o: ")])) as [[r rest'] tr'].
    injection IH as -> -> ->. rewrite <- app_assoc. reflexivity.
Qed.

Lemma yes_no_exhausts_stdin_witness :
  forallb (fun line => negb (accepted line))
          (stdin (boot example_config ["maybe"; "ok"])) = true
  /\ fst (yes_no "-> Do you want to update?" (boot example_config ["maybe"; "ok"]))
     = Raise EOFError.
Proof.
  assert (H : forallb (fun line => negb (accepted line))
                (stdin (boot example_config ["maybe"; "ok"])) = true) by reflexivity.
  split; [exact H|].
  exact (f_equal fst (yes_no_exhausts_stdin "-> Do you want to update?"
                        (boot example_config ["maybe"; "ok"]) H)).
Defined.

(** ** Discovery and staging, in general *)

Lemma find_modpack_directories_loop_spec (curr_dir : string) (entries : list DirEntry) :
  find_modpack_directories_loop curr_dir entries
  = (map (fun entry => PrintList (listing_of entry)) (filter is_directory entries),
     map (fun entry => path_join curr_dir (entry_name entry))
         (filter holds_marker entries)).
Proof.
  induction entries as [|entry rest IH].
  - reflexivity.
  - change (find_modpack_directories_loop curr_dir (entry :: rest))
      with (let (evs, dirs) := find_modpack_directories_loop curr_dir rest in
            match entry_listing entry with
            | None => (evs, dirs)
            | Some listing =>
                (PrintList listing :: evs,
                 if existsb (fun file => PyStr.mem file listing) markers
                 then path_join curr_dir (entry_name entry) :: dirs else dirs)
            end).
    rewrite IH. cbn [filter].
    assert (Hdir : is_directory entry
                   = match entry_listing entry with Some _ => true | None => false end)
      by reflexivity.
    assert (Hmark : holds_marker entry
                    = match entry_listing entry with
                      | Some listing =>
                          existsb (fun file => PyStr.mem file listing) markers
                      | None => false
                      end) by reflexivity.
    assert (Hlist : listing_of entry
                    = match entry_listing entry with Some l => l | None => [] end)
      by reflexivity.
    destruct (entry_listing entry) as [listing|].
    + rewrite Hdir, Hmark. cbn [map]. rewrite Hlist.
      destruct (existsb (fun file => PyStr.mem file listing) markers); reflexivity.
    + rewrite Hdir, Hmark. reflexivity.
Qed.

(** X10. [find_modpack_directories] returns, in the order of the listing,
    exactly the directories that hold "forge.jar", "server.properties" or
    "mods", each under its path joined to the working directory as
    [os.path.join] does on a POSIX system (one separator between the two,
    none added after a working directory that ends in one); a plain file
    is never returned, whatever its name.  It prints the listing of every
    directory, marked or not, and changes nothing else. *)
Theorem find_modpack_directories_spec (w : World) (m : Machine) :
  find_modpack_directories w m
  = (Ok (map (fun entry => path_join (cwd w) (entry_name entry))
             (filter holds_marker (cwd_entries w))),
     mkMachine (self m) (stdin m)
       (trace m ++ map (fun entry => PrintList (listing_of entry))
                       (filter is_directory (cwd_entries w)))%list
       (config_json m))
  /\ (forall entry, entry_listing entry = None -> holds_marker entry = false)
  /\ (forall entry listing,
        entry_listing entry = Some listing ->
        (holds_marker entry = true <->
         In "forge.jar" listing \/ In "server.properties" listing \/ In "mods" listing))
  /\ path_join "/" "atm9" = "/atm9"
  /\ path_join "/srv" "atm9" = "/srv/atm9"
  /\ path_join "/srv/" "atm9" = "/srv/atm9".
Proof.
  split; [|split; [|split; [|repeat split]]].
  - unfold find_modpack_directories.
    rewrite find_modpack_directories_loop_spec. reflexivity.
  - intros entry H. unfold holds_marker. rewrite H. reflexivity.
  - intros entry listing H. unfold holds_marker, markers, PyStr.mem. rewrite H.
    cbn [existsb]. rewrite !orb_true_iff, !existsb_exists.
    split.
    + intros [[x [Hx Heq]]|[[x [Hx Heq]]|[[x [Hx Heq]]|Hf]]];
        try discriminate Hf; apply String.eqb_eq in Heq; subst x; tauto.
    + intros [H1|[H1|H1]]; [left|right; left|right; right; left];
        eexists; (split; [exact H1|apply String.eqb_refl]).
Qed.

(** ** Registry URLs *)

Lemma append_inv_head (s a b : string) : s ++ a = s ++ b -> a = b.
Proof.
  induction s as [|c s IH]; simpl; intros H; [exact H|].
  injection H as H. exact (IH H).
Qed.

Lemma length_append (a b : string) :
  String.length (a ++ b) = (String.length a + String.length b)%nat.
Proof. induction a as [|c a IH]; simpl; [reflexivity|]. rewrite IH. reflexivity. Qed.

Lemma append_inv_tail (a b t : string) : a ++ t = b ++ t -> a = b.
Proof.
  revert b. induction a as [|c a IH]; intros [|c' b] H; simpl in H.
  - reflexivity.
  - exfalso. apply (f_equal String.length) in H. simpl in H.
    rewrite length_append in H. lia.
  - exfalso. apply (f_equal String.length) in H. simpl in H.
    rewrite length_append in H. lia.
  - injection H as -> H. rewrite (IH b H). reflexivity.
Qed.

Lemma of_Z_inj (a b : Z) : PyStr.of_Z a = PyStr.of_Z b -> a = b.
Proof.
  unfold PyStr.of_Z. intros H. apply DecimalZ.to_int_inj.
  assert (Hnn : forall z, Z.to_int z <> Decimal.Pos Decimal.Nil
                          /\ Z.to_int z <> Decimal.Neg Decimal.Nil).
  { intros [|p|p]; cbn; split; try discriminate;
      intros Heq; injection Heq as Heq;
      exact (DecimalPos.Unsigned.to_uint_nonnil p Heq). }
  destruct (Hnn a) as [Ha1 Ha2], (Hnn b) as [Hb1 Hb2].
  pose proof (NilZero.isi _ Ha1 Ha2) as Ia.
  pose proof (NilZero.isi _ Hb1 Hb2) as Ib.
  rewrite H in Ia. rewrite Ia in Ib. injection Ib as Ib. exact Ib.
Qed.

(** X14. For one pack, two releases have the same download URL only if
    they have the same identifier, and likewise for the additional-files
    URL: distinct releases are never fetched from the same address. *)
Theorem release_urls_injective (u : Updater) (r1 r2 : Release) :
  (build_download_url u r1 = build_download_url u r2 -> id r1 = id r2)
  /\ (build_additional_files_url u r1 = build_additional_files_url u r2 ->
      id r1 = id r2).
Proof.
  unfold build_download_url, build_additional_files_url.
  split; intros H;
    do 6 apply append_inv_head in H;
    apply append_inv_tail in H; apply of_Z_inj in H; exact H.
Qed.

Lemma release_urls_injective_witness :
  build_download_url (read_config example_config) example_latest
  = build_download_url (read_config example_config) example_latest
  /\ id example_latest = id example_latest.
Proof.
  split; [reflexivity|].
  apply (proj1 (release_urls_injective (read_config example_config)
                  example_latest example_latest)).
  reflexivity.
Defined.

(** ** Whole runs, in general *)

Lemma yes_no_loop_raises (question : string) (lines rest : list string)
    (tr tr' : list event) (e : exn) :
  yes_no_loop question lines tr = (Raise e, rest, tr') -> e = EOFError.
Proof.
  revert tr. induction lines as [|yn lines IH]; intros tr H.
  - injection H as <- _ _. reflexivity.
  - rewrite yes_no_loop_cons in H. destruct (accepted yn); [discriminate H|].
    exact (IH _ H).
Qed.

Lemma yes_no_loop_events_exact (question : string) (lines rest : list string)
    (tr tr' : list event) (r : result bool) (e : event) :
  yes_no_loop question lines tr = (r, rest, tr') ->
  In e tr' -> In e tr \/ e = Prompt (question ++ " | (Y)es/(N)o: ").
Proof.
  intros Hyn Hin. destruct (yes_no_loop_trace question lines tr) as [k Hk].
  rewrite Hyn in Hk. cbn [snd] in Hk. subst tr'.
  apply in_app_or in Hin as [Hin|Hin]; [left; exact Hin|right].
  apply repeat_spec in Hin. exact Hin.
Qed.

(** X15. [save_config] comes last in [update]: a run that raises, at the
    registry query, at a prompt or while installing, has written nothing
    and has not started saving, so [config.json] is as it was. *)
Theorem update_abort_leaves_config (w : World) (c : Config) (lines : list string)
    (e : exn) :
  fst (update w (boot c lines)) = Raise e ->
  config_json (snd (update w (boot c lines))) = c
  /\ (forall written,
        ~ In (WriteConfig written) (trace (snd (update w (boot c lines)))))
  /\ ~ In (Print "-> Saving config...") (trace (snd (update w (boot c lines)))).
Proof.
  intros Hraise.
  pose proof (update_run_complete w c lines) as R.
  destruct R as [ Hreg | latest Hreg Hres
                | latest cur b Hreg Hres Hb [-> | ->]
                | latest cur e' rest tr Hreg Hres Hb Hyn
                | latest cur rest tr Hreg Hres Hb Hyn
                | latest cur rest tr Hreg Hres Hb Hyn Hzip
                | latest cur rest tr Hreg Hres Hb Hyn Hzip ];
    cbv zeta in *; cbn [fst snd trace config_json] in *;
    try discriminate Hraise;
    (split; [reflexivity|]);
    (split; [intros written Hin|intros Hin]);
    trace_cases Hin; cbn in Hin; discriminate Hin.
Qed.

Lemma update_abort_leaves_config_witness :
  fst (update example_world (boot default_config [])) = Raise EOFError
  /\ config_json (snd (update example_world (boot default_config [])))
     = default_config.
Proof.
  assert (H : fst (update example_world (boot default_config [])) = Raise EOFError)
    by (vm_compute; reflexivity).
  split; [exact H|].
  exact (proj1 (update_abort_leaves_config example_world default_config [] EOFError H)).
Defined.

(** X16. With a version stored and nothing to install (the stored version
    is the latest one, or the latest release has no server files), a run
    is not interactive: it reads nothing from standard input, prints the
    one line that says why, and writes the document back unchanged. *)
Theorem update_nothing_to_do (w : World) (c : Config) (lines : list string)
    (v : string) (latest : Release) :
  cfg_current_version c = Some v ->
  registry w (query_url c) = Some latest ->
  v = parse_version latest \/ has_server_files latest = false ->
  update w (boot c lines)
  = (Ok tt,
     mkMachine (read_config c) lines
       (preamble c
          ++ [Print (if String.eqb v (parse_version latest)
                     then "-> You are on the latest version."
                     else "-> No server files found.")]
          ++ saving (read_config c))%list
       c).
Proof.
  intros Hv Hreg Hidle.
  assert (Hres : resolved_version c lines = Some v)
    by (unfold resolved_version; rewrite Hv; reflexivity).
  assert (Hb : update_branch (Some v) (parse_version latest) latest
               = if String.eqb v (parse_version latest)
                 then OnLatestVersion else NoServerFilesFound).
  { unfold update_branch, version_eqb.
    destruct (String.eqb_spec v (parse_version latest)) as [Heq|Hne];
      [rewrite andb_false_l; reflexivity|].
    destruct Hidle as [Heq|Hnone]; [contradiction|].
    rewrite Hnone. reflexivity. }
  pose proof (update_run_complete w c lines) as R.
  destruct R as [ Hreg' | latest' Hreg' Hres'
                | latest' cur b Hreg' Hres' Hb' _
                | latest' cur e' rest tr Hreg' Hres' Hb' Hyn
                | latest' cur rest tr Hreg' Hres' Hb' Hyn
                | latest' cur rest tr Hreg' Hres' Hb' Hyn Hzip
                | latest' cur rest tr Hreg' Hres' Hb' Hyn Hzip ];
    try congruence;
    assert (latest' = latest) by congruence; assert (cur = v) by congruence;
    subst latest' cur;
    try (rewrite Hb in Hb';
         destruct (String.eqb v (parse_version latest)); discriminate Hb').
  subst u. rewrite Hb in Hb'. subst b.
  unfold announced, version_prompts, stdin_after_version. rewrite Hv.
  destruct c as [mods pidx psize srt sdesc alphas cv dat].
  cbn in Hv. subst cv.
  destruct (String.eqb v (parse_version latest)); reflexivity.
Qed.

Lemma update_nothing_to_do_witness :
  cfg_current_version (with_current_version example_config (Some "0.1.13"))
  = Some "0.1.13"
  /\ registry example_world
       (query_url (with_current_version example_config (Some "0.1.13")))
     = Some example_latest
  /\ ("0.1.13" = parse_version example_latest
      \/ has_server_files example_latest = false)
  /\ fst (update example_world
            (boot (with_current_version example_config (Some "0.1.13")) ["y"]))
     = Ok tt.
Proof.
  split; [reflexivity|]. split; [reflexivity|]. split; [left; reflexivity|].
  exact (f_equal fst
           (update_nothing_to_do example_world
              (with_current_version example_config (Some "0.1.13")) ["y"]
              "0.1.13" example_latest eq_refl eq_refl (or_introl eq_refl))).
Defined.

Lemma update_completed_config (w : World) (c : Config) (lines : list string) :
  fst (update w (boot c lines)) = Ok tt ->
  exists cur,
    resolved_version c lines = Some cur
    /\ config_json (snd (update w (boot c lines)))
       = with_current_version c (Some cur).
Proof.
  intros Hok.
  pose proof (update_run_complete w c lines) as R.
  destruct R as [ Hreg | latest Hreg Hres
                | latest cur b Hreg Hres Hb _
                | latest cur e' rest tr Hreg Hres Hb Hyn
                | latest cur rest tr Hreg Hres Hb Hyn
                | latest cur rest tr Hreg Hres Hb Hyn Hzip
                | latest cur rest tr Hreg Hres Hb Hyn Hzip ];
    cbn [fst] in Hok; try discriminate Hok;
    exists cur; (split; [exact Hres|reflexivity]).
Qed.

Lemma version_prompt_not_confirmation :
  Prompt version_prompt <> Prompt ("-> Do you want to update?" ++ " | (Y)es/(N)o: ").
Proof. vm_compute. discriminate. Qed.

Lemma version_prompt_absent_when_stored (w : World) (c : Config)
    (lines : list string) (v : string) :
  cfg_current_version c = Some v ->
  ~ In (Prompt version_prompt) (trace (snd (update w (boot c lines)))).
Proof.
  intros Hv Hin.
  assert (Hnone : version_prompts c = []) by (unfold version_prompts; rewrite Hv; reflexivity).
  assert (Hann : forall latest b,
             ~ In (Prompt version_prompt) (announced c latest b)).
  { intros latest b H. unfold announced, preamble in H. rewrite Hnone in H.
    cbn in H. intuition discriminate. }
  assert (Hyes : forall latest rest tr' r,
             yes_no_loop "-> Do you want to update?" (stdin_after_version c lines)
               (announced c latest NewVersionFound) = (r, rest, tr') ->
             ~ In (Prompt version_prompt) tr').
  { intros latest rest tr' r Hyn H.
    apply (yes_no_loop_events_exact _ _ _ _ _ _ _ Hyn) in H as [H|H].
    - exact (Hann _ _ H).
    - exact (version_prompt_not_confirmation H). }
  pose proof (update_run_complete w c lines) as R.
  destruct R as [ Hreg | latest Hreg Hres
                | latest cur b Hreg Hres Hb _
                | latest cur e' rest tr Hreg Hres Hb Hyn
                | latest cur rest tr Hreg Hres Hb Hyn
                | latest cur rest tr Hreg Hres Hb Hyn Hzip
                | latest cur rest tr Hreg Hres Hb Hyn Hzip ];
    cbv zeta in *; cbn [snd trace] in Hin.
  - cbn in Hin. intuition discriminate.
  - unfold resolved_version in Hres. rewrite Hv in Hres. discriminate Hres.
  - apply in_app_or in Hin as [Hin|Hin]; [exact (Hann _ _ Hin)|].
    cbn in Hin. intuition discriminate.
  - exact (Hyes _ _ _ _ Hyn Hin).
  - apply in_app_or in Hin as [Hin|Hin]; [exact (Hyes _ _ _ _ Hyn Hin)|].
    cbn in Hin. intuition discriminate.
  - apply in_app_or in Hin as [Hin|Hin]; [exact (Hyes _ _ _ _ Hyn Hin)|].
    apply discovery_events in Hin as [Hin|[listing Hin]]; discriminate Hin.
  - apply in_app_or in Hin as [Hin|Hin]; [exact (Hyes _ _ _ _ Hyn Hin)|].
    apply in_app_or in Hin as [Hin|Hin];
      [apply discovery_events in Hin as [Hin|[listing Hin]]; discriminate Hin|].
    cbn in Hin. intuition discriminate.
Qed.

(** X17. The version is asked for at most once in the life of a
    configuration: after any run that completed, the document written back
    holds a version, so no later run started from it, whatever the
    registry and the input then, shows the version prompt; and the later
    run queries the registry at the same URL. *)
Theorem version_prompt_only_once (w : World) (c : Config) (lines : list string) :
  fst (update w (boot c lines)) = Ok tt ->
  (exists v, cfg_current_version (config_json (snd (update w (boot c lines))))
             = Some v)
  /\ query_url (config_json (snd (update w (boot c lines)))) = query_url c
  /\ (forall w' lines',
        ~ In (Prompt version_prompt)
             (trace (snd (update w'
                            (boot (config_json (snd (update w (boot c lines))))
                                  lines'))))).
Proof.
  intros Hok.
  destruct (update_completed_config w c lines Hok) as (cur & _ & ->).
  split; [exists cur; reflexivity|]. split; [reflexivity|].
  intros w' lines'.
  apply (version_prompt_absent_when_stored w' _ lines' cur). reflexivity.
Qed.

Lemma version_prompt_only_once_witness :
  fst (update example_world (boot default_config ["0.1.11"; "n"])) = Ok tt
  /\ query_url (config_json (snd (update example_world
                                    (boot default_config ["0.1.11"; "n"]))))
     = query_url default_config.
Proof.
  assert (H : fst (update example_world (boot default_config ["0.1.11"; "n"])) = Ok tt)
    by (vm_compute; reflexivity).
  split; [exact H|].
  exact (proj1 (proj2 (version_prompt_only_once example_world default_config
                         ["0.1.11"; "n"] H))).
Defined.

(** X18. Installing does not record the new version, so the update is
    offered again: after a run in which the installation completed, every
    later run from the document written back, against a registry that still
    serves the same latest release, announces that release as a new
    version once more. *)
Theorem update_offered_again (w : World) (c : Config) (lines lines' : list string)
    (latest : Release) :
  fst (update w (boot c lines)) = Ok tt ->
  In (Print "-> Update complete!") (trace (snd (update w (boot c lines)))) ->
  registry w (query_url c) = Some latest ->
  In (Print ("-> New version found! (" ++ parse_version latest ++ ")"))
     (trace (snd (update w (boot (config_json (snd (update w (boot c lines))))
                                 lines')))).
Proof.
  intros Hok Hdone Hreg.
  assert (Hfirst : exists cur,
             config_json (snd (update w (boot c lines)))
             = with_current_version c (Some cur)
             /\ update_branch (Some cur) (parse_version latest) latest
                = NewVersionFound).
  { pose proof (update_run_complete w c lines) as R.
    destruct R as [ Hreg' | latest' Hreg' Hres
                  | latest' cur b Hreg' Hres Hb [-> | ->]
                  | latest' cur e' rest tr Hreg' Hres Hb Hyn
                  | latest' cur rest tr Hreg' Hres Hb Hyn
                  | latest' cur rest tr Hreg' Hres Hb Hyn Hzip
                  | latest' cur rest tr Hreg' Hres Hb Hyn Hzip ];
      cbv zeta in *; cbn [fst snd trace config_json] in *;
      try discriminate Hok.
    1-3: exfalso; trace_cases Hdone; cbn in Hdone; discriminate Hdone.
    assert (latest' = latest) by congruence. subst latest'.
    exists cur. split; [reflexivity|exact Hb]. }
  destruct Hfirst as (cur & -> & Hb).
  set (c' := with_current_version c (Some cur)).
  assert (Hreg2 : registry w (query_url c') = Some latest) by exact Hreg.
  assert (Hres2 : resolved_version c' lines' = Some cur) by reflexivity.
  assert (Hann : In (Print ("-> New version found! (" ++ parse_version latest ++ ")"))
                    (announced c' latest NewVersionFound)).
  { unfold announced. rewrite !in_app_iff. right; right. left. reflexivity. }
  assert (Hyes : forall r rest tr',
             yes_no_loop "-> Do you want to update?" (stdin_after_version c' lines')
               (announced c' latest NewVersionFound) = (r, rest, tr') ->
             In (Print ("-> New version found! (" ++ parse_version latest ++ ")")) tr').
  { intros r rest tr' Hyn.
    destruct (yes_no_loop_extends _ _ _ _ _ _ Hyn) as [prompts ->].
    apply in_or_app. left. exact Hann. }
  pose proof (update_run_complete w c' lines') as R.
  destruct R as [ Hreg' | latest' Hreg' Hres
                | latest' cur' b Hreg' Hres Hb' Hsettled
                | latest' cur' e' rest tr Hreg' Hres Hb' Hyn
                | latest' cur' rest tr Hreg' Hres Hb' Hyn
                | latest' cur' rest tr Hreg' Hres Hb' Hyn Hzip
                | latest' cur' rest tr Hreg' Hres Hb' Hyn Hzip ];
    try congruence;
    assert (latest' = latest) by congruence; assert (cur' = cur) by congruence;
    subst latest' cur'; cbv zeta; cbn [snd trace].
  - exfalso. rewrite Hb in Hb'. subst b. destruct Hsettled; discriminate.
  - exact (Hyes _ _ _ Hyn).
  - apply in_or_app. left. exact (Hyes _ _ _ Hyn).
  - apply in_or_app. left. exact (Hyes _ _ _ Hyn).
  - apply in_or_app. left. exact (Hyes _ _ _ Hyn).
Qed.

Lemma update_offered_again_witness :
  fst (update example_world (boot example_config ["y"])) = Ok tt
  /\ In (Print "-> Update complete!")
        (trace (snd (update example_world (boot example_config ["y"]))))
  /\ registry example_world (query_url example_config) = Some example_latest
  /\ In (Print ("-> New version found! (" ++ parse_version example_latest ++ ")"))
        (trace (snd (update example_world
                       (boot (config_json (snd (update example_world
                                                  (boot example_config ["y"]))))
                             ["n"])))).
Proof.
  assert (Hok : fst (update example_world (boot example_config ["y"])) = Ok tt)
    by (vm_compute; reflexivity).
  assert (Hdone : In (Print "-> Update complete!")
                     (trace (snd (update example_world (boot example_config ["y"])))))
    by (vm_compute; tauto).
  assert (Hreg : registry example_world (query_url example_config) = Some example_latest)
    by reflexivity.
  split; [exact Hok|]. split; [exact Hdone|]. split; [exact Hreg|].
  exact (update_offered_again example_world example_config ["y"] ["n"]
           example_latest Hok Hdone Hreg).
Defined.
